(** * CrowdCount: the shared state store and the zone aggregation

    A shallow embedding of [Code/shared_state.py] (class [SharedState]) and of
    the zone logic of [Code/detector/integrated_detector.py]
    (class [IntegratedPeopleDetector]), with the properties of the design
    document stated over them.

    Python dictionaries keyed by zone name are finite maps ([gmap string _]),
    Python sets of tracking identities are finite sets ([gset Z]), Python
    integers are [Z], and lists are lists. *)

From Stdlib Require Import ZArith Lia.
From stdpp Require Import gmap strings list fin_maps pretty.

Local Open Scope Z_scope.

Set Warnings "-clear-no-such-hyp".

(** ** Python list and deque primitives *)

Module Py.

(** [lst[start:]]: a negative start counts from the end of the list, and the
    resulting index is clamped to [0 .. len(lst)]. *)
Definition slice_from {A} (start : Z) (lst : list A) : list A :=
  let n := Z.of_nat (length lst) in
  let i := if start <? 0 then Z.max (n + start) 0 else Z.min start n in
  drop (Z.to_nat i) lst.

(** [collections.deque(maxlen=m).append(x)]: the item is added on the right
    and, when the deque has grown past [m], one item is discarded on the
    left. *)
Definition deque_append {A} (maxlen : nat) (d : list A) (x : A) : list A :=
  let d' := d ++ [x] in
  if (maxlen <? length d')%nat then drop 1 d' else d'.

(** The last [k] items of a list, oldest first. *)
Definition lastn {A} (k : nat) (l : list A) : list A :=
  drop (length l - k) l.

End Py.

(** ** shared_state.py *)

(** One sample of the history ring, the dictionary built in
    [update_counts]. The time stamp is the ISO text of the clock reading. *)
Record history_entry := HistoryEntry {
  timestamp : string;
  total_count : Z;
  zone_counts : gmap string Z
}.

(** [deque(maxlen=3600)] in [SharedState.__init__]. *)
Definition HISTORY_MAXLEN : nat := 3600.

(** The fields of [SharedState] that the counters, the history and the alerts
    use. The heat-map accumulator and the frame dimensions (a numpy array
    drawn on by OpenCV) are left out: no field below is computed from them. *)
Record SharedState := mkSharedState {
  _total_count : Z;
  _zone_counts : gmap string Z;
  _zone_visitors : gmap string (gset Z);
  _person_coordinates : list (Z * Z);
  _history : list history_entry;
  _global_threshold : Z;
  _zone_thresholds : gmap string Z;
  _last_update : option string;
  _detection_running : bool
}.

(** [SharedState.__init__]. *)
Definition init : SharedState :=
  {| _total_count := 0;
     _zone_counts := ∅;
     _zone_visitors := ∅;
     _person_coordinates := [];
     _history := [];
     _global_threshold := 50;
     _zone_thresholds := ∅;
     _last_update := None;
     _detection_running := false |}.

(** The arguments of one [update_counts] call, together with the reading of
    [datetime.now()] taken inside it. *)
Record update := mkUpdate {
  u_total_count : Z;
  u_zone_counts : gmap string Z;
  u_zone_visitors : gmap string (gset Z);
  u_coordinates : list (Z * Z);
  u_now : string
}.

(** The history entry that [update_counts] records for a call. *)
Definition history_entry_of (u : update) : history_entry :=
  {| timestamp := u_now u;
     total_count := u_total_count u;
     zone_counts := u_zone_counts u |}.

(** [SharedState.update_counts]. The dictionaries and sets are copied, so the
    store holds values of its own. *)
Definition update_counts (u : update) (s : SharedState) : SharedState :=
  {| _total_count := u_total_count u;
     _zone_counts := u_zone_counts u;
     _zone_visitors := u_zone_visitors u;
     _person_coordinates := u_coordinates u;
     _history := Py.deque_append HISTORY_MAXLEN (_history s) (history_entry_of u);
     _global_threshold := _global_threshold s;
     _zone_thresholds := _zone_thresholds s;
     _last_update := Some (u_now u);
     _detection_running := _detection_running s |}.

(** A sequence of [update_counts] calls, first call first. *)
Definition run_updates (us : list update) (s : SharedState) : SharedState :=
  foldl (fun st u => update_counts u st) s us.

(** [SharedState.get_history]: [list(self._history)[-limit:]]. *)
Definition get_history (limit : Z) (s : SharedState) : list history_entry :=
  Py.slice_from (- limit) (_history s).

(** How many samples a request for [limit] samples is answered with after [n]
    updates: [min(limit, n, 3600)]. *)
Definition history_window (limit : Z) (n : nat) : nat :=
  Z.to_nat (Z.min limit (Z.min (Z.of_nat n) 3600)).

(** The value stored per zone by [get_zone_counts]. *)
Record zone_stats := mkZoneStats {
  current : Z;
  total_visitors : nat
}.

(** [SharedState.get_zone_counts]: one entry per item of [_zone_counts], the
    visitor total read with [self._zone_visitors.get(zone_name, set())]. *)
Definition get_zone_counts (s : SharedState) : gmap string zone_stats :=
  map_fold
    (fun zone_name current_count result =>
       <[zone_name := {| current := current_count;
                         total_visitors :=
                           size (default ∅ (_zone_visitors s !! zone_name)) |}]> result)
    ∅ (_zone_counts s).

(** [SharedState.set_global_threshold] and [SharedState.set_zone_threshold]. *)
Definition set_global_threshold (threshold : Z) (s : SharedState) : SharedState :=
  {| _total_count := _total_count s;
     _zone_counts := _zone_counts s;
     _zone_visitors := _zone_visitors s;
     _person_coordinates := _person_coordinates s;
     _history := _history s;
     _global_threshold := threshold;
     _zone_thresholds := _zone_thresholds s;
     _last_update := _last_update s;
     _detection_running := _detection_running s |}.

Definition set_zone_threshold (zone_name : string) (threshold : Z)
    (s : SharedState) : SharedState :=
  {| _total_count := _total_count s;
     _zone_counts := _zone_counts s;
     _zone_visitors := _zone_visitors s;
     _person_coordinates := _person_coordinates s;
     _history := _history s;
     _global_threshold := _global_threshold s;
     _zone_thresholds := <[zone_name := threshold]> (_zone_thresholds s);
     _last_update := _last_update s;
     _detection_running := _detection_running s |}.

(** An alert record: the dictionaries built in [check_alerts]. The ['zone']
    key exists in zone alerts only. *)
Record alert := mkAlert {
  a_type : string;
  a_zone : option string;
  a_threshold : Z;
  a_current : Z;
  a_exceeded : bool
}.

Definition global_alert (s : SharedState) : alert :=
  {| a_type := "global"; a_zone := None;
     a_threshold := _global_threshold s; a_current := _total_count s;
     a_exceeded := true |}.

Definition zone_alert (zone_name : string) (threshold current : Z) : alert :=
  {| a_type := "zone"; a_zone := Some zone_name;
     a_threshold := threshold; a_current := current;
     a_exceeded := true |}.

(** The body of the loop over [self._zone_counts.items()] in [check_alerts].
    [if threshold and current > threshold]: a missing threshold ([None]) and a
    threshold of 0 are both false in Python. *)
Definition check_zone (zone_thresholds : gmap string Z)
    (zone_name : string) (current : Z) (alerts : gmap string alert)
    : gmap string alert :=
  match zone_thresholds !! zone_name with
  | Some threshold =>
      if negb (threshold =? 0) && (threshold <? current)
      then <[zone_name := zone_alert zone_name threshold current]> alerts
      else alerts
  | None => alerts
  end.

(** [SharedState.check_alerts]. *)
Definition check_alerts (s : SharedState) : gmap string alert :=
  let alerts :=
    if _global_threshold s <? _total_count s
    then <["global" := global_alert s]> ∅
    else ∅ in
  map_fold (check_zone (_zone_thresholds s)) alerts (_zone_counts s).

(** ** OpenCV's point-in-polygon test

    [cv2.pointPolygonTest(contour, pt, False)] is OpenCV's routine, not code of
    this repository. It is modelled after its branch for a contour of 32-bit
    integer points and a query point with integral coordinates, the only one
    [point_in_zone] reaches: the contour is built with [dtype=np.int32] and the
    query is a box centre computed with [int(...)]. Coordinates are pixel
    positions, for which the conversions and the products below are exact. *)

Definition point : Type := Z * Z.

Module cv2.

(** One turn of the loop over the contour's edges, from [v0] to [v]:
    [None] when the routine returns 0 there (the point is on the edge),
    [Some b] when it goes on, with [b] telling whether the crossing counter
    is incremented. *)
Definition edge_test (ip v0 v : point) : option bool :=
  let '(px, py) := ip in
  let '(x0, y0) := v0 in
  let '(x, y) := v in
  if ((y0 <=? py) && (y <=? py)) || ((py <? y0) && (py <? y))
     || ((x0 <? px) && (x <? px))
  then
    if (py =? y)
       && ((px =? x)
           || ((py =? y0)
               && (((x0 <=? px) && (px <=? x)) || ((x <=? px) && (px <=? x0)))))
    then None
    else Some false
  else
    let dist := (py - y0) * (x - x0) - (px - x0) * (y - y0) in
    if dist =? 0 then None
    else Some (0 <? (if y <? y0 then - dist else dist)).

(** The loop [for (i = 0; i < total; i++) { v0 = v; v = cnt[i]; ... }] and
    the final [counter % 2 == 0 ? -1 : 1]. *)
Fixpoint scan (ip v : point) (cnt : list point) (counter : nat) : Z :=
  match cnt with
  | [] => if Nat.even counter then -1 else 1
  | v' :: rest =>
      match edge_test ip v v' with
      | None => 0
      | Some b => scan ip v' rest (if b then S counter else counter)
      end
  end.

(** The routine starts from [v = cnt[total-1]]. An empty contour does not
    pass its argument check and raises [cv2.error]: [None]. *)
Definition pointPolygonTest (contour : list point) (pt : point) : option Z :=
  match last contour with
  | Some v => Some (scan pt v contour 0)
  | None => None
  end.

End cv2.

(** ** detector/integrated_detector.py *)

(** An entry of [self.zones['zones']]: [zone['points']] is read by indexing,
    [zone.get('name', 'Unnamed')] and [zone.get('enabled', True)] have
    defaults. *)
Record zone := mkZone {
  z_name : option string;
  z_points : list point;
  z_enabled : option bool
}.

Definition zone_name_of (z : zone) : string := default "Unnamed" (z_name z).
Definition zone_enabled (z : zone) : bool := default true (z_enabled z).

(** [IntegratedPeopleDetector.point_in_zone]; [None] when the call raises. *)
Definition point_in_zone (pt : point) (zone_points : list point) : option bool :=
  r ← cv2.pointPolygonTest zone_points pt; Some (0 <=? r).

(** [IntegratedPeopleDetector.get_person_zone]: the loop over the zones, with
    the list [zones_detected] built so far. *)
Fixpoint get_person_zone_from (zones : list zone) (bbox_center : point)
    (zones_detected : list string) : option (list string) :=
  match zones with
  | [] => Some zones_detected
  | z :: rest =>
      if negb (zone_enabled z) then get_person_zone_from rest bbox_center zones_detected
      else
        inside ← point_in_zone bbox_center (z_points z);
        get_person_zone_from rest bbox_center
          (if inside : bool then zones_detected ++ [zone_name_of z] else zones_detected)
  end.

Definition get_person_zone (zones : list zone) (bbox_center : point)
    : option (list string) :=
  get_person_zone_from zones bbox_center [].

(** A detection dictionary of [detect_people], with the keys the aggregation
    reads: ['id'], ['center'] and ['zones']. *)
Record detection := mkDetection {
  det_id : Z;
  det_center : point;
  det_zones : list string
}.

(** The two zone dictionaries of the detector: [defaultdict(set)] and
    [defaultdict(int)]. *)
Record detector := mkDetector {
  zone_visitors : gmap string (gset Z);
  zone_current_count : gmap string Z
}.

(** The body of the inner loop of [update_zone_statistics]:
    [count[zone_name] = count.get(zone_name, 0) + 1] and
    [visitors[zone_name].add(track_id)], where indexing the [defaultdict]
    creates the empty set for a new zone name. *)
Definition count_in_zone (track_id : Z) (st : detector) (zone_name : string)
    : detector :=
  {| zone_visitors :=
       <[zone_name := default ∅ (zone_visitors st !! zone_name) ∪ {[track_id]}]>
         (zone_visitors st);
     zone_current_count :=
       <[zone_name := default 0 (zone_current_count st !! zone_name) + 1]>
         (zone_current_count st) |}.

Definition count_detection (st : detector) (det : detection) : detector :=
  foldl (count_in_zone (det_id det)) st (det_zones det).

(** [IntegratedPeopleDetector.update_zone_statistics]:
    [self.zone_current_count.clear()], then the two loops. *)
Definition update_zone_statistics (detections : list detection) (st : detector)
    : detector :=
  foldl count_detection
    {| zone_visitors := zone_visitors st; zone_current_count := ∅ |}
    detections.

(** The arguments that [update_shared_state] passes to [update_counts]. *)
Definition shared_update (detections : list detection) (st : detector)
    (now : string) : update :=
  {| u_total_count := Z.of_nat (length detections);
     u_zone_counts := zone_current_count st;
     u_zone_visitors := zone_visitors st;
     u_coordinates := det_center <$> detections;
     u_now := now |}.

(** [IntegratedPeopleDetector.update_shared_state]. *)
Definition update_shared_state (detections : list detection) (st : detector)
    (now : string) (shared : SharedState) : SharedState :=
  update_counts (shared_update detections st now) shared.

(** The end of [detect_people]: the zone statistics, then the shared state. *)
Definition aggregate_frame (detections : list detection) (now : string)
    (st : detector * SharedState) : detector * SharedState :=
  let d := update_zone_statistics detections st.1 in
  (d, update_shared_state detections d now st.2).

(** A sequence of frames, first frame first. *)
Definition run_frames (frames : list (list detection)) (st : detector) : detector :=
  foldl (fun d detections => update_zone_statistics detections d) st frames.

(** [count.get(zone_name, 0)] and [len(visitors.get(zone_name, set()))], as
    [draw_zones] and [print_zone_statistics] read the two dictionaries. *)
Definition current_of (st : detector) (zone_name : string) : Z :=
  default 0 (zone_current_count st !! zone_name).

Definition visitors_of (st : detector) (zone_name : string) : gset Z :=
  default ∅ (zone_visitors st !! zone_name).

(** ** Counting, for the statements *)

(** How often a zone name occurs in a list of zone names. *)
Definition hits (zone_name : string) (zones : list string) : Z :=
  Z.of_nat (length (filter (fun n => n = zone_name) zones)).

(** How many (detection, containing zone) pairs of a frame carry a zone
    name. *)
Definition zone_hits (zone_name : string) (detections : list detection) : Z :=
  hits zone_name (concat (det_zones <$> detections)).

(** The identities of the detections of a frame that are in a zone. *)
Definition ids_in_zone (zone_name : string) (detections : list detection) : gset Z :=
  list_to_set (det_id <$> filter (fun d => zone_name ∈ det_zones d) detections).

(** The names of the enabled zones that contain a point, in the order of the
    configuration. *)
Definition containing (zones : list zone) (pt : point) : list string :=
  zone_name_of
    <$> filter (fun z => zone_enabled z = true
                         ∧ point_in_zone pt (z_points z) = Some true) zones.

(** ** Polygon boundaries, for the statements *)

(** [p] lies on the closed segment from [a] to [b]: it is on the line through
    the two points and within their bounding box. *)
Definition on_segment (p a b : point) : Prop :=
  (p.2 - a.2) * (b.1 - a.1) = (p.1 - a.1) * (b.2 - a.2)
  ∧ Z.min a.1 b.1 ≤ p.1 ≤ Z.max a.1 b.1
  ∧ Z.min a.2 b.2 ≤ p.2 ≤ Z.max a.2 b.2.

(** The edges of an open chain that starts at [v] and goes through [cnt]. *)
Fixpoint edges_from (v : point) (cnt : list point) : list (point * point) :=
  match cnt with
  | [] => []
  | v' :: rest => (v, v') :: edges_from v' rest
  end.

(** The edges of a closed polygon: from the last vertex to the first, then
    along the list. *)
Definition edges (contour : list point) : list (point * point) :=
  match last contour with
  | Some v => edges_from v contour
  | None => []
  end.

(** [p] lies on an edge or on a vertex of the polygon. *)
Definition on_boundary (p : point) (contour : list point) : Prop :=
  ∃ e, e ∈ edges contour ∧ on_segment p e.1 e.2.

(** ** Auxiliary notions of the statements *)

(** The zone alert that [check_zone] writes for a zone name, if any. *)
Definition zone_alert_of (zone_thresholds zone_counts : gmap string Z)
    (zone_name : string) : option alert :=
  match zone_counts !! zone_name, zone_thresholds !! zone_name with
  | Some c, Some t =>
      if negb (t =? 0) && (t <? c) then Some (zone_alert zone_name t c) else None
  | _, _ => None
  end.

(** Every entry of the current counter made by a frame is at least 1. *)
Definition positive_counts (st : detector) : Prop :=
  ∀ n c, zone_current_count st !! n = Some c → 1 ≤ c.

(** ** Sample inputs *)

Definition update_a : update := mkUpdate 1 ∅ ∅ [(10, 20)] "2025-01-01T00:00:00".
Definition update_b : update := mkUpdate 2 ∅ ∅ [(10, 20); (30, 40)] "2025-01-01T00:00:01".

Definition update_lobby (n : Z) : update :=
  mkUpdate n {["Lobby" := 1]} {["Lobby" := {[7]}]} [(10, 20)] "2025-01-01T00:00:00".

Definition frame_1 : list detection :=
  [mkDetection 1 (10, 10) ["A"]; mkDetection 2 (20, 10) ["A"];
   mkDetection 3 (30, 10) ["A"]].
Definition frame_2 : list detection :=
  [mkDetection 1 (12, 10) ["A"]; mkDetection 4 (40, 10) ["A"]].
Definition detector_0 : detector := mkDetector ∅ ∅.

Definition detector_lobby : detector := mkDetector {["Lobby" := {[7]}]} {["Lobby" := 1]}.

Definition square_a : list point := [(0, 0); (20, 0); (20, 20); (0, 20)].
Definition square_b : list point := [(10, 10); (30, 10); (30, 30); (10, 30)].
Definition zones_ab : list zone :=
  [mkZone (Some "A") square_a None; mkZone (Some "B") square_b (Some true)].

Definition update_gate : update :=
  mkUpdate 2 {["Lobby" := 2]} {["Lobby" := {[7; 8]}; "Gate" := {[9]}]}
    [(10, 20); (30, 40)] "2025-01-01T00:00:02".

(** ** Proof steps for the boolean tests *)




(** ** shared_state.py, the other methods *)

(** [SharedState.get_total_count], [get_coordinates], [get_last_update],
    [get_global_threshold] and [get_zone_threshold]
    ([self._zone_thresholds.get(zone_name)]). *)
Definition get_total_count (s : SharedState) : Z := _total_count s.
Definition get_coordinates (s : SharedState) : list (Z * Z) := _person_coordinates s.
Definition get_last_update (s : SharedState) : option string := _last_update s.
Definition get_global_threshold (s : SharedState) : Z := _global_threshold s.
Definition get_zone_threshold (zone_name : string) (s : SharedState) : option Z :=
  _zone_thresholds s !! zone_name.

(** [SharedState.clear_history]. *)
Definition clear_history (s : SharedState) : SharedState :=
  {| _total_count := _total_count s;
     _zone_counts := _zone_counts s;
     _zone_visitors := _zone_visitors s;
     _person_coordinates := _person_coordinates s;
     _history := [];
     _global_threshold := _global_threshold s;
     _zone_thresholds := _zone_thresholds s;
     _last_update := _last_update s;
     _detection_running := _detection_running s |}.

(** [SharedState.set_detection_running] and [is_detection_running]. *)
Definition set_detection_running (running : bool) (s : SharedState) : SharedState :=
  {| _total_count := _total_count s;
     _zone_counts := _zone_counts s;
     _zone_visitors := _zone_visitors s;
     _person_coordinates := _person_coordinates s;
     _history := _history s;
     _global_threshold := _global_threshold s;
     _zone_thresholds := _zone_thresholds s;
     _last_update := _last_update s;
     _detection_running := running |}.

Definition is_detection_running (s : SharedState) : bool := _detection_running s.

(** The calls that change the store, and a sequence of them, first call
    first. *)
Inductive store_call :=
  | CallUpdateCounts (u : update)
  | CallClearHistory
  | CallSetGlobalThreshold (threshold : Z)
  | CallSetZoneThreshold (zone_name : string) (threshold : Z)
  | CallSetDetectionRunning (running : bool).

Definition store_step (s : SharedState) (c : store_call) : SharedState :=
  match c with
  | CallUpdateCounts u => update_counts u s
  | CallClearHistory => clear_history s
  | CallSetGlobalThreshold t => set_global_threshold t s
  | CallSetZoneThreshold n t => set_zone_threshold n t s
  | CallSetDetectionRunning b => set_detection_running b s
  end.

Definition run_calls (cs : list store_call) (s : SharedState) : SharedState :=
  foldl store_step s cs.

(** ** backend/api.py, the threshold request *)

(** [POST /alerts/threshold]. The two thresholds are declared
    [Query(default=None, ge=1)]: a request that carries a threshold below 1 is
    refused before the handler runs ([None] here, and the store is not
    touched). In the handler, [if zone_name and zone_threshold is not None]
    skips a missing and an empty zone name. *)
Definition query_ge_1 (value : option Z) : bool :=
  match value with
  | Some v => 1 <=? v
  | None => true
  end.

Definition set_threshold (global_threshold : option Z) (zone_name : option string)
    (zone_threshold : option Z) (s : SharedState) : option SharedState :=
  if query_ge_1 global_threshold && query_ge_1 zone_threshold
  then
    let s1 := match global_threshold with
              | Some g => set_global_threshold g s
              | None => s
              end in
    Some match zone_name, zone_threshold with
         | Some n, Some t => if bool_decide (n = "") then s1 else set_zone_threshold n t s1
         | _, _ => s1
         end
  else None.

(** A client of the store that sets thresholds through this request only. *)
Inductive api_call :=
  | ApiUpdateCounts (u : update)
  | ApiSetThreshold (global_threshold : option Z) (zone_name : option string)
      (zone_threshold : option Z).

Definition api_step (s : SharedState) (c : api_call) : SharedState :=
  match c with
  | ApiUpdateCounts u => update_counts u s
  | ApiSetThreshold g n t => default s (set_threshold g n t s)
  end.

Definition run_api (cs : list api_call) (s : SharedState) : SharedState :=
  foldl api_step s cs.

(** The thresholds of a store that is configured through the threshold request
    only are all at least 1, and no threshold is stored for the empty name. *)
Definition thresholds_valid (s : SharedState) : Prop :=
  1 ≤ _global_threshold s
  ∧ (∀ z t, _zone_thresholds s !! z = Some t → 1 ≤ t)
  ∧ _zone_thresholds s !! "" = None.

(** A sequence of frames, each with the clock reading of its
    [update_counts] call, through the detector and the store. *)
Definition run_timed_frames (frames : list (list detection * string))
    (st : detector * SharedState) : detector * SharedState :=
  foldl (fun s f => aggregate_frame f.1 f.2 s) st frames.

(** ** detector/integrated_detector.py, drawing zones with the mouse *)

(** The mouse events that [mouse_callback] tells apart; every other event is
    [EVENT_OTHER]. *)
Inductive mouse_event :=
  | EVENT_LBUTTONDOWN
  | EVENT_RBUTTONDOWN
  | EVENT_MBUTTONDOWN
  | EVENT_OTHER.

(** The fields of the detector that the drawing of zones uses:
    [self.zones['zones']], [self.drawing_mode] and
    [self.current_zone_points]. *)
Record drawing := mkDrawing {
  zones : list zone;
  drawing_mode : bool;
  current_zone_points : list point
}.

(** [IntegratedPeopleDetector.finish_zone]: the zone is named
    [f"Zone_{len(self.zones['zones']) + 1}"] and enabled. *)
Definition finish_zone (d : drawing) : drawing :=
  let zone_name := "Zone_" +:+ pretty (length (zones d) + 1)%nat in
  {| zones := zones d ++ [mkZone (Some zone_name) (current_zone_points d) (Some true)];
     drawing_mode := drawing_mode d;
     current_zone_points := [] |}.

(** [IntegratedPeopleDetector.mouse_callback]. *)
Definition mouse_callback (event : mouse_event) (x y : Z) (d : drawing) : drawing :=
  if negb (drawing_mode d) then d
  else
    match event with
    | EVENT_LBUTTONDOWN =>
        {| zones := zones d;
           drawing_mode := drawing_mode d;
           current_zone_points := current_zone_points d ++ [(x, y)] |}
    | EVENT_RBUTTONDOWN =>
        if (3 <=? length (current_zone_points d))%nat then finish_zone d else d
    | EVENT_MBUTTONDOWN =>
        if (0 <? length (current_zone_points d))%nat
        then {| zones := zones d;
                drawing_mode := drawing_mode d;
                current_zone_points := removelast (current_zone_points d) |}
        else d
    | EVENT_OTHER => d
    end.

(** What the user does while a video plays, as far as the zones go: a mouse
    event, the key 'd' ([self.drawing_mode = not self.drawing_mode]) and the
    key 'c' ([self.current_zone_points = []]) of [process_video]. *)
Inductive ui_event :=
  | Mouse (event : mouse_event) (x y : Z)
  | KeyD
  | KeyC.

Definition ui_step (d : drawing) (e : ui_event) : drawing :=
  match e with
  | Mouse event x y => mouse_callback event x y d
  | KeyD => {| zones := zones d;
               drawing_mode := negb (drawing_mode d);
               current_zone_points := current_zone_points d |}
  | KeyC => {| zones := zones d;
               drawing_mode := drawing_mode d;
               current_zone_points := [] |}
  end.

Definition run_ui (es : list ui_event) (d : drawing) : drawing := foldl ui_step d es.

(** ** detector/integrated_detector.py, the tracking trails *)

(** The update of [self.track_history] in [detect_people]:
    [self.track_history[track_id].append(center)], then [pop(0)] when the trail
    has more than 30 points. The dictionary is a [defaultdict] of lists. *)
Definition record_trail (track_history : gmap Z (list point))
    (seen : Z * point) : gmap Z (list point) :=
  let trail := default [] (track_history !! seen.1) ++ [seen.2] in
  <[seen.1 := if (30 <? length trail)%nat then drop 1 trail else trail]> track_history.

Definition record_trails (observed : list (Z * point))
    (track_history : gmap Z (list point)) : gmap Z (list point) :=
  foldl record_trail track_history observed.

(** ** detector/integrated_detector.py, the frame loop of process_video *)

(** The counters of the loop. *)
Record video_loop := mkVideoLoop {
  frames_read : Z;
  frame_count : Z;
  frame_skip : Z
}.

(** [frame_skip = max(1, int(speed))]; the argument stands for [int(speed)]. *)
Definition start_loop (speed : Z) : video_loop :=
  {| frames_read := 0; frame_count := 0; frame_skip := Z.max 1 speed |}.

(** The keys '+' or '=' and '-' or '_' (codes 43, 61, 45 and 95) on the frame
    skip; the other keys leave it. *)
Definition speed_key (key frame_skip : Z) : Z :=
  if (key =? 43) || (key =? 61) then Z.min (frame_skip + 1) 10
  else if (key =? 45) || (key =? 95) then Z.max (frame_skip - 1) 1
  else frame_skip.

(** One turn of the loop in which a frame is read: [frames_read += 1], the
    frame is skipped unless [frames_read % frame_skip == 0], else it is counted
    and the key of [cv2.waitKey] is handled. [None] is the [ZeroDivisionError]
    of a frame skip of 0. *)
Definition read_frame (key : Z) (l : video_loop) : option video_loop :=
  if frame_skip l =? 0 then None
  else
    let frames_read' := frames_read l + 1 in
    if negb (frames_read' mod frame_skip l =? 0)
    then Some {| frames_read := frames_read';
                 frame_count := frame_count l;
                 frame_skip := frame_skip l |}
    else Some {| frames_read := frames_read';
                 frame_count := frame_count l + 1;
                 frame_skip := speed_key key (frame_skip l) |}.

(** The loop over the frames read, each with the key pressed while it is
    shown; the key 'q' (code 113) on a processed frame ends the loop. *)
Fixpoint run_loop (keys : list Z) (l : video_loop) : option video_loop :=
  match keys with
  | [] => Some l
  | key :: rest =>
      match read_frame key l with
      | None => None
      | Some l' =>
          if (frame_count l' =? frame_count l + 1) && (key =? 113) then Some l'
          else run_loop rest l'
      end
  end.

(** ** zone_manager.py *)

Module ZoneManager.

(** [ZoneManager.toggle_zone]: [zone['enabled'] = not zone.get('enabled', True)]
    for an index within the list, nothing otherwise. *)
Definition toggle_zone (zone_index : Z) (zones : list zone) : list zone :=
  if (0 <=? zone_index) && (zone_index <? Z.of_nat (length zones))
  then alter (fun z => mkZone (z_name z) (z_points z) (Some (negb (zone_enabled z))))
         (Z.to_nat zone_index) zones
  else zones.

End ZoneManager.

(** ** backend/admin.py, the zones of the configuration file *)

Module Admin.








End Admin.

(** Three clicks and a right click in drawing mode, from a detector without
    zones. *)
Definition drawing_0 : drawing := mkDrawing [] false [].
Definition ui_triangle : list ui_event :=
  [KeyD; Mouse EVENT_LBUTTONDOWN 0 0; Mouse EVENT_LBUTTONDOWN 10 0;
   Mouse EVENT_LBUTTONDOWN 0 10; Mouse EVENT_RBUTTONDOWN 5 5; KeyD].

(** A zone with at least 3 points; zones numbered from 1 in the order of the
    list. *)
Definition three_points (z : zone) : Prop := (3 ≤ length (z_points z))%nat.

Definition numbered (zs : list zone) : Prop :=
  ∀ i z, zs !! i = Some z → z_name z = Some ("Zone_" +:+ pretty (S i)).

(** A key that neither changes the speed nor ends the loop. *)
Definition plain_key (key : Z) : Prop := key ∉ [43; 61; 45; 95; 113].

(** What the detector reads of a zone: its name, its points and whether it is
    enabled. *)
Definition effective (z : zone) : string * list point * bool :=
  (zone_name_of z, z_points z, zone_enabled z).

(** An edge on which the routine returns 0 for a point, an edge that it counts
    as crossed, and the number of edges crossed. *)
Definition touches (p : point) (e : point * point) : Prop :=
  cv2.edge_test p e.1 e.2 = None.

Definition crosses (p : point) (e : point * point) : Prop :=
  cv2.edge_test p e.1 e.2 = Some true.

#[global] Instance touches_dec (p : point) (e : point * point) :
  Decision (touches p e).
Proof. unfold touches. apply _. Defined.

#[global] Instance crosses_dec (p : point) (e : point * point) :
  Decision (crosses p e).
Proof. unfold crosses. apply _. Defined.


(** * Properties *)

(** ** The history ring *)

Section HistoryRing.

Context {A : Type}.
Implicit Types (l d : list A) (x : A) (m k : nat).

Lemma lastn_length k l : length (Py.lastn k l) = (k `min` length l)%nat.
Proof. unfold Py.lastn. rewrite length_drop. lia. Qed.

Lemma lastn_all k l : (length l ≤ k)%nat → Py.lastn k l = l.
Proof.
  intros Hk. unfold Py.lastn.
  replace (length l - k)%nat with 0%nat by lia. reflexivity.
Qed.

Lemma lastn_lastn k m l : Py.lastn k (Py.lastn m l) = Py.lastn (k `min` m) l.
Proof.
  unfold Py.lastn. rewrite length_drop, drop_drop. f_equal. lia.
Qed.

(** Appending to a deque that holds the last [m] items of [l] leaves the last
    [m] items of [l ++ [x]]. *)
Lemma deque_append_lastn m l x :
  Py.deque_append m (Py.lastn m l) x = Py.lastn m (l ++ [x]).
Proof.
  unfold Py.deque_append.
  rewrite length_app, lastn_length. cbn [length].
  destruct (Nat.ltb_spec m (m `min` length l + 1)) as [Hfull | Hroom].
  - unfold Py.lastn. rewrite length_app. cbn [length].
    replace (length l + 1 - m)%nat with (length l - m + 1)%nat by lia.
    rewrite <- (drop_drop (l ++ [x])), (drop_app_le l) by lia. reflexivity.
  - rewrite (lastn_all m l) by lia.
    rewrite lastn_all; [reflexivity |].
    rewrite length_app. cbn [length]. lia.
Qed.

(** Python's [lst[-k:]] for a positive [k] is the last [k] items. *)
Lemma slice_from_neg (limit : Z) l :
  1 ≤ limit → Py.slice_from (- limit) l = Py.lastn (Z.to_nat limit) l.
Proof.
  intros Hpos. unfold Py.slice_from, Py.lastn.
  destruct (Z.ltb_spec (- limit) 0) as [_ | Hge]; [| lia].
  f_equal. lia.
Qed.

(** [lst[-0:]] is [lst[0:]], the whole list. *)
Lemma slice_from_zero l : Py.slice_from (- 0) l = l.
Proof. unfold Py.slice_from. cbn. rewrite Z.min_l by lia. reflexivity. Qed.

End HistoryRing.

(** The ring holds the last [HISTORY_MAXLEN] entries of all the calls made. *)
Lemma history_run_updates (us : list update) :
  _history (run_updates us init) = Py.lastn HISTORY_MAXLEN (history_entry_of <$> us).
Proof.
  induction us as [| u us IH] using rev_ind.
  - reflexivity.
  - unfold run_updates in *. rewrite foldl_snoc, fmap_app. cbn [update_counts _history fmap list_fmap].
    rewrite IH. apply deque_append_lastn.
Qed.

Lemma lastn_min_length {A} (k : nat) (l : list A) :
  Py.lastn k l = Py.lastn (k `min` length l) l.
Proof. unfold Py.lastn. f_equal. lia. Qed.

Lemma HISTORY_MAXLEN_Z : Z.of_nat HISTORY_MAXLEN = 3600.
Proof. reflexivity. Qed.

(** C1, as stated, fails: with a limit of 0 the slice [history_list[-0:]] is
    the whole list, so after one update one sample is returned where the
    statement asks for none. *)
Lemma get_history_limit_zero_returns_all :
  ¬ (∀ (us : list update) (limit : Z), 0 ≤ limit →
       get_history limit (run_updates us init)
       = Py.lastn (history_window limit (length us)) (history_entry_of <$> us)).
Proof.
  intros Hclaim.
  specialize (Hclaim [update_a] 0 ltac:(lia)).
  vm_compute in Hclaim. discriminate Hclaim.
Qed.

(** C1, amended: for every sequence of [update_counts] calls and every limit
    of at least 1, [get_history] returns exactly the last
    [min(limit, number of updates, 3600)] samples, in the order of the calls;
    a limit above 3600 behaves as 3600. *)
Theorem get_history_last_samples (us : list update) (limit : Z) :
  1 ≤ limit →
  get_history limit (run_updates us init)
  = Py.lastn (history_window limit (length us)) (history_entry_of <$> us)
  ∧ length (get_history limit (run_updates us init))
    = history_window limit (length us).
Proof.
  intros Hlimit.
  assert (Heq : get_history limit (run_updates us init)
                = Py.lastn (history_window limit (length us)) (history_entry_of <$> us)).
  { unfold get_history. rewrite slice_from_neg by assumption.
    rewrite history_run_updates, lastn_lastn.
    rewrite lastn_min_length, length_fmap.
    f_equal. unfold history_window.
    pose proof HISTORY_MAXLEN_Z. lia. }
  split; [exact Heq |].
  rewrite Heq, lastn_length, length_fmap.
  unfold history_window. lia.
Qed.

Lemma get_history_last_samples_witness :
  1 ≤ 1
  ∧ get_history 1 (run_updates [update_a; update_b] init) = [history_entry_of update_b].
Proof.
  split; [lia |].
  destruct (get_history_last_samples [update_a; update_b] 1 ltac:(lia)) as [Heq _].
  rewrite Heq. reflexivity.
Defined.

(** ** Zone counts as read back from the store *)

Lemma get_zone_counts_lookup (s : SharedState) (zone_name : string) :
  get_zone_counts s !! zone_name
  = (fun c => mkZoneStats c (size (default ∅ (_zone_visitors s !! zone_name))))
      <$> (_zone_counts s !! zone_name).
Proof.
  unfold get_zone_counts. revert zone_name.
  apply (map_fold_weak_ind
           (fun (r : gmap string zone_stats) (m : gmap string Z) =>
              ∀ k, r !! k
                   = (fun c => mkZoneStats c (size (default ∅ (_zone_visitors s !! k))))
                       <$> (m !! k))).
  - intros k. by rewrite !lookup_empty.
  - intros i x m r Hfresh IH k.
    destruct (decide (i = k)) as [-> | Hne].
    + by rewrite !lookup_insert_eq.
    + rewrite !lookup_insert_ne by done. apply IH.
Qed.

(** C10: in every state the mapping returned by [get_zone_counts] has exactly
    the keys of the stored zone-counts map, which after [update_counts] is the
    zone-counts map of that most recent call; each key comes with that
    call's current count and the size of that call's visitor set (0 when the
    call gave none); a zone that is absent from that map is absent from the
    result, whatever its stored visitor set. *)
Theorem get_zone_counts_keys_of_last_update (u : update) (s : SharedState) :
  dom (get_zone_counts s) = dom (_zone_counts s)
  ∧ dom (get_zone_counts (update_counts u s)) = dom (u_zone_counts u)
  ∧ (∀ zone_name c,
       u_zone_counts u !! zone_name = Some c →
       get_zone_counts (update_counts u s) !! zone_name
       = Some (mkZoneStats c (size (default ∅ (u_zone_visitors u !! zone_name)))))
  ∧ (∀ zone_name visitors,
       u_zone_counts u !! zone_name = None →
       u_zone_visitors u !! zone_name = Some visitors →
       get_zone_counts (update_counts u s) !! zone_name = None).
Proof.
  assert (Hdom : ∀ s', dom (get_zone_counts s') = dom (_zone_counts s')).
  { intros s'. apply set_eq. intros k.
    rewrite !elem_of_dom, get_zone_counts_lookup. by rewrite fmap_is_Some. }
  split; [apply Hdom |]. split; [apply Hdom |]. split.
  - intros k c Hk. rewrite get_zone_counts_lookup.
    cbn [update_counts _zone_counts _zone_visitors]. by rewrite Hk.
  - intros k vs Hk _. rewrite get_zone_counts_lookup.
    cbn [update_counts _zone_counts]. by rewrite Hk.
Qed.

Lemma get_zone_counts_keys_of_last_update_witness :
  get_zone_counts (update_counts update_gate init) !! "Lobby" = Some (mkZoneStats 2 2)
  ∧ get_zone_counts (update_counts update_gate init) !! "Gate" = None.
Proof.
  destruct (get_zone_counts_keys_of_last_update update_gate init)
    as (_ & _ & Hin & Hout).
  split.
  - rewrite (Hin "Lobby" 2) by reflexivity. reflexivity.
  - apply (Hout "Gate" {[9]}); reflexivity.
Defined.

(** ** Alerts *)

Lemma fold_check_zone_lookup (thresholds counts : gmap string Z)
    (alerts0 : gmap string alert) (k : string) :
  map_fold (check_zone thresholds) alerts0 counts !! k
  = match zone_alert_of thresholds counts k with
    | Some a => Some a
    | None => alerts0 !! k
    end.
Proof.
  revert k.
  apply (map_fold_weak_ind
           (fun (r : gmap string alert) (m : gmap string Z) =>
              ∀ k, r !! k = match zone_alert_of thresholds m k with
                            | Some a => Some a
                            | None => alerts0 !! k
                            end)).
  - intros k. unfold zone_alert_of. by rewrite lookup_empty.
  - intros i c m r Hfresh IH k.
    unfold check_zone, zone_alert_of.
    destruct (decide (i = k)) as [-> | Hne].
    + rewrite lookup_insert_eq.
      specialize (IH k). unfold zone_alert_of in IH. rewrite Hfresh in IH.
      destruct (thresholds !! k) as [t |]; [| exact IH].
      destruct (negb (t =? 0) && (t <? c)); [| exact IH].
      by rewrite lookup_insert_eq.
    + rewrite (lookup_insert_ne m) by done.
      specialize (IH k). unfold zone_alert_of in IH.
      destruct (thresholds !! i) as [t |]; [| exact IH].
      destruct (negb (t =? 0) && (t <? c)); [| exact IH].
      by rewrite lookup_insert_ne.
Qed.

Lemma check_alerts_lookup (s : SharedState) (k : string) :
  check_alerts s !! k
  = match zone_alert_of (_zone_thresholds s) (_zone_counts s) k with
    | Some a => Some a
    | None => if decide (k = "global" ∧ _global_threshold s < _total_count s)
              then Some (global_alert s) else None
    end.
Proof.
  unfold check_alerts. rewrite fold_check_zone_lookup.
  destruct (zone_alert_of _ _ k); [reflexivity |].
  destruct (Z.ltb_spec (_global_threshold s) (_total_count s)) as [Hgt | Hle].
  - destruct (decide (k = "global")) as [-> | Hne].
    + rewrite lookup_insert_eq. by rewrite decide_True.
    + rewrite lookup_insert_ne, lookup_empty by done.
      rewrite decide_False; [done | tauto].
  - rewrite lookup_empty. rewrite decide_False; [done | lia].
Qed.

Lemma zone_alert_of_Some (thresholds counts : gmap string Z) (k : string) :
  is_Some (zone_alert_of thresholds counts k)
  ↔ ∃ c t, counts !! k = Some c ∧ thresholds !! k = Some t ∧ t ≠ 0 ∧ t < c.
Proof.
  unfold zone_alert_of. split.
  - intros Hsome.
    destruct (counts !! k) as [c |]; [| by destruct Hsome].
    destruct (thresholds !! k) as [t |]; [| by destruct Hsome].
    destruct (Z.eqb_spec t 0) as [Hz | Hnz]; [by destruct Hsome |].
    destruct (Z.ltb_spec t c) as [Hlt | Hge]; [| by destruct Hsome].
    by exists c, t.
  - intros (c & t & -> & -> & Hnz & Hlt).
    destruct (Z.eqb_spec t 0) as [| _]; [done |].
    destruct (Z.ltb_spec t c) as [_ | Hge]; [by eexists | lia].
Qed.

(** C3, as stated, fails: a zone present in the zone counts, with a stored
    threshold of 0 and a current count of 1, has a threshold and exceeds it,
    yet [if threshold and current > threshold] gives it no alert key. *)
Lemma check_alerts_zero_threshold_no_key :
  ¬ (∀ s : SharedState,
       ("global" ∈ dom (check_alerts s) ↔ _global_threshold s < _total_count s)
       ∧ (∀ z c, _zone_counts s !! z = Some c →
            (z ∈ dom (check_alerts s)
             ↔ ∃ t, _zone_thresholds s !! z = Some t ∧ t < c))).
Proof.
  intros Hclaim.
  destruct (Hclaim (set_zone_threshold "Lobby" 0 (update_counts (update_lobby 1) init)))
    as [_ Hzones].
  specialize (Hzones "Lobby" 1 eq_refl) as [_ Hback].
  assert (Hkey : "Lobby" ∈ dom (check_alerts
            (set_zone_threshold "Lobby" 0 (update_counts (update_lobby 1) init)))).
  { apply Hback. exists 0. split; [reflexivity | lia]. }
  apply elem_of_dom in Hkey. vm_compute in Hkey.
  destruct Hkey as [a Ha]. discriminate Ha.
Qed.

(** The key ["global"] is shared with a zone of that name: such a zone's alert
    is stored under it, also when the total is within the global threshold. *)
Example check_alerts_zone_named_global :
  let s := set_zone_threshold "global" 1
             (update_counts (mkUpdate 2 {["global" := 2]} ∅ [] "t") init) in
  _total_count s ≤ _global_threshold s
  ∧ check_alerts s !! "global" = Some (zone_alert "global" 1 2).
Proof. split; [by vm_compute | by vm_compute]. Qed.

(** C3, amended: [check_alerts] holds the key of a zone name other than
    ["global"] exactly when the zone is in the current zone counts with a
    stored threshold that is not 0 and is strictly below its current count; it
    holds the key ["global"] exactly when the total strictly exceeds the global
    threshold or a zone named ["global"] has such an alert; with no zone of
    that name the key carries the global record. Every record has
    [exceeded = true], and the result is computed from the latest update and the
    thresholds alone, so nothing of an earlier call persists. *)
Theorem check_alerts_keys (s : SharedState) :
  (∀ z, z ≠ "global" →
     (z ∈ dom (check_alerts s)
      ↔ ∃ c t, _zone_counts s !! z = Some c ∧ _zone_thresholds s !! z = Some t
               ∧ t ≠ 0 ∧ t < c))
  ∧ ("global" ∈ dom (check_alerts s)
     ↔ _global_threshold s < _total_count s
       ∨ ∃ c t, _zone_counts s !! "global" = Some c
                ∧ _zone_thresholds s !! "global" = Some t ∧ t ≠ 0 ∧ t < c)
  ∧ (_zone_counts s !! "global" = None →
     check_alerts s !! "global"
     = if decide (_global_threshold s < _total_count s)
       then Some (global_alert s) else None)
  ∧ (∀ z a, check_alerts s !! z = Some a → a_exceeded a = true)
  ∧ (∀ u s', _global_threshold s' = _global_threshold s →
             _zone_thresholds s' = _zone_thresholds s →
             check_alerts (update_counts u s') = check_alerts (update_counts u s)).
Proof.
  split; [| split; [| split; [| split]]].
  - intros z Hz. rewrite elem_of_dom, check_alerts_lookup, <- zone_alert_of_Some.
    destruct (zone_alert_of _ _ z) as [a |]; [done |].
    rewrite decide_False by tauto. done.
  - rewrite elem_of_dom, check_alerts_lookup, <- zone_alert_of_Some.
    destruct (zone_alert_of _ _ "global") as [a |].
    + split; [intros _; right; by eexists | by eexists].
    + destruct (decide (_global_threshold s < _total_count s)) as [Hgt | Hle].
      * rewrite decide_True by done. split; [by left | by eexists].
      * rewrite decide_False by tauto.
        split; [by intros [? ?] | intros [? | [? ?]]; done].
  - intros Hnone. rewrite check_alerts_lookup.
    unfold zone_alert_of. rewrite Hnone.
    destruct (decide (_global_threshold s < _total_count s)).
    + by rewrite decide_True.
    + rewrite decide_False; [done | tauto].
  - intros z a. rewrite check_alerts_lookup.
    unfold zone_alert_of.
    destruct (_zone_counts s !! z) as [c |], (_zone_thresholds s !! z) as [t |];
      try destruct (negb (t =? 0) && (t <? c));
      try case_decide; intros Ha; by simplify_eq.
  - intros u s' Hg Hz. unfold check_alerts, global_alert.
    cbn [update_counts _global_threshold _total_count _zone_thresholds _zone_counts].
    by rewrite Hg, Hz.
Qed.

(** The scenario of the design document: with the default global threshold of
    50, a total of 51 gives a global alert with [exceeded = true] and a total of
    50 gives none. *)
Lemma check_alerts_keys_witness :
  (∃ a, check_alerts (update_counts (update_lobby 51) init) !! "global" = Some a
        ∧ a_exceeded a = true ∧ a_threshold a = 50 ∧ a_current a = 51)
  ∧ check_alerts (update_counts (update_lobby 50) init) !! "global" = None.
Proof.
  split.
  - destruct (check_alerts_keys (update_counts (update_lobby 51) init))
      as (_ & _ & Hglobal & _).
    exists (global_alert (update_counts (update_lobby 51) init)).
    rewrite Hglobal by reflexivity. repeat split.
  - destruct (check_alerts_keys (update_counts (update_lobby 50) init))
      as (_ & _ & Hglobal & _).
    rewrite Hglobal by reflexivity. reflexivity.
Defined.

(** ** The zone statistics of the detector *)

Section ZoneStatistics.

Implicit Types (st : detector) (n z : string) (id : Z)
  (det : detection) (dets : list detection).

Lemma hits_nil n : hits n [] = 0.
Proof. reflexivity. Qed.

Lemma hits_cons n z zs :
  hits n (z :: zs) = (if decide (z = n) then 1 else 0) + hits n zs.
Proof.
  unfold hits. rewrite filter_cons.
  destruct (decide (z = n)); cbn [length]; lia.
Qed.

Lemma hits_app n zs1 zs2 : hits n (zs1 ++ zs2) = hits n zs1 + hits n zs2.
Proof. unfold hits. rewrite filter_app, length_app. lia. Qed.


Lemma hits_pos n zs : n ∈ zs → 1 ≤ hits n zs.
Proof.
  intros Hin. unfold hits.
  assert (Hf : n ∈ filter (fun m => m = n) zs) by (by apply list_elem_of_filter).
  destruct (filter (fun m => m = n) zs); [by apply not_elem_of_nil in Hf |].
  cbn [length]. lia.
Qed.

Lemma hits_zero n zs : n ∉ zs → hits n zs = 0.
Proof.
  intros Hnot. unfold hits.
  destruct (filter (fun m => m = n) zs) as [| m l] eqn:Hf; [reflexivity |].
  assert (Hm : m ∈ filter (fun m => m = n) zs) by (rewrite Hf; left).
  apply list_elem_of_filter in Hm as [-> Hm]. contradiction.
Qed.

Lemma current_of_count_in_zone id st z n :
  current_of (count_in_zone id st z) n
  = current_of st n + (if decide (z = n) then 1 else 0).
Proof.
  unfold current_of, count_in_zone. cbn [zone_current_count].
  destruct (decide (z = n)) as [-> | Hne].
  - rewrite lookup_insert_eq. reflexivity.
  - rewrite lookup_insert_ne by done. lia.
Qed.

Lemma visitors_of_count_in_zone id st z n :
  visitors_of (count_in_zone id st z) n
  = visitors_of st n ∪ (if decide (z = n) then {[id]} else ∅).
Proof.
  unfold visitors_of, count_in_zone. cbn [zone_visitors].
  destruct (decide (z = n)) as [-> | Hne].
  - rewrite lookup_insert_eq. reflexivity.
  - rewrite lookup_insert_ne by done. set_solver.
Qed.

Lemma current_of_count_detection st det n :
  current_of (count_detection st det) n = current_of st n + hits n (det_zones det).
Proof.
  unfold count_detection. generalize (det_zones det) as zs. intros zs.
  revert st. induction zs as [| z zs IH]; intros st.
  - rewrite hits_nil. cbn. lia.
  - cbn [foldl]. rewrite IH, current_of_count_in_zone, hits_cons. lia.
Qed.

Lemma visitors_of_count_detection st det n :
  visitors_of (count_detection st det) n
  = visitors_of st n ∪ (if decide (n ∈ det_zones det) then {[det_id det]} else ∅).
Proof.
  unfold count_detection. generalize (det_zones det) as zs. intros zs.
  revert st. induction zs as [| z zs IH]; intros st.
  - cbn [foldl]. rewrite decide_False by apply not_elem_of_nil. set_solver.
  - cbn [foldl]. rewrite IH, visitors_of_count_in_zone.
    destruct (decide (z = n)) as [-> | Hne].
    + rewrite (decide_True (P := n ∈ n :: zs)) by left.
      destruct (decide (n ∈ zs)); set_solver.
    + destruct (decide (n ∈ zs)) as [Hin | Hnot].
      * rewrite decide_True by (by right). set_solver.
      * rewrite decide_False; [set_solver |].
        intros [Heq | Hin]%elem_of_cons; [by subst | done].
Qed.

Lemma current_of_foldl st dets n :
  current_of (foldl count_detection st dets) n = current_of st n + zone_hits n dets.
Proof.
  revert st. induction dets as [| det dets IH]; intros st.
  - unfold zone_hits. cbn. rewrite hits_nil. lia.
  - cbn [foldl]. rewrite IH, current_of_count_detection.
    unfold zone_hits. cbn [fmap list_fmap concat]. rewrite hits_app. lia.
Qed.

Lemma visitors_of_foldl st dets n :
  visitors_of (foldl count_detection st dets) n
  = visitors_of st n ∪ ids_in_zone n dets.
Proof.
  revert st. induction dets as [| det dets IH]; intros st.
  - unfold ids_in_zone. cbn. set_solver.
  - cbn [foldl]. rewrite IH, visitors_of_count_detection.
    unfold ids_in_zone. rewrite filter_cons.
    destruct (decide (n ∈ det_zones det)); cbn [fmap list_fmap list_to_set];
      set_solver.
Qed.

(** After a frame the current count of a zone is the number of the frame's
    detections in it, whatever it was before; the visitors are those recorded
    before together with the identities of these detections. *)
Lemma current_of_update_zone_statistics dets st n :
  current_of (update_zone_statistics dets st) n = zone_hits n dets.
Proof.
  unfold update_zone_statistics. rewrite current_of_foldl.
  unfold current_of at 1. cbn [zone_current_count]. rewrite lookup_empty. cbn. lia.
Qed.

Lemma visitors_of_update_zone_statistics dets st n :
  visitors_of (update_zone_statistics dets st) n
  = visitors_of st n ∪ ids_in_zone n dets.
Proof.
  unfold update_zone_statistics. rewrite visitors_of_foldl. reflexivity.
Qed.

Lemma visitors_of_run_frames frames st n :
  visitors_of st n ⊆ visitors_of (run_frames frames st) n.
Proof.
  revert st. induction frames as [| dets frames IH]; intros st.
  - reflexivity.
  - unfold run_frames in *. cbn [foldl].
    etrans; [| apply IH].
    rewrite visitors_of_update_zone_statistics. set_solver.
Qed.

End ZoneStatistics.

(** The scenario of the design document: identities 1, 2, 3 in zone "A", then
    identities 1 and 4. *)
Example two_frames_in_zone_A :
  let d1 := update_zone_statistics frame_1 detector_0 in
  let d2 := update_zone_statistics frame_2 d1 in
  current_of d1 "A" = 3 ∧ size (visitors_of d1 "A") = 3%nat
  ∧ current_of d2 "A" = 2 ∧ size (visitors_of d2 "A") = 4%nat.
Proof. repeat split; by vm_compute. Qed.

(** C2: for every zone name and every sequence of frames, the zone's visitor
    set only grows, so its size does not decrease, while the current count is
    recomputed by each frame from that frame's detections alone and is 0 after
    a frame without detections, which leaves the visitors as they were. *)
Theorem visitors_only_grow (frames : list (list detection)) (st : detector)
    (n : string) :
  visitors_of st n ⊆ visitors_of (run_frames frames st) n
  ∧ (size (visitors_of st n) ≤ size (visitors_of (run_frames frames st) n))%nat
  ∧ (∀ dets, current_of (update_zone_statistics dets (run_frames frames st)) n
             = zone_hits n dets)
  ∧ current_of (update_zone_statistics [] (run_frames frames st)) n = 0
  ∧ visitors_of (update_zone_statistics [] (run_frames frames st)) n
    = visitors_of (run_frames frames st) n.
Proof.
  pose proof (visitors_of_run_frames frames st n) as Hsub.
  split; [exact Hsub |].
  split; [by apply subseteq_size |].
  split; [intros dets; apply current_of_update_zone_statistics |].
  split; [by rewrite current_of_update_zone_statistics |].
  rewrite visitors_of_update_zone_statistics. unfold ids_in_zone. cbn. set_solver.
Qed.

Lemma positive_counts_count_in_zone id st z :
  positive_counts st → positive_counts (count_in_zone id st z).
Proof.
  intros Hpos n c. unfold count_in_zone. cbn [zone_current_count].
  destruct (decide (z = n)) as [-> | Hne].
  - rewrite lookup_insert_eq. intros [= <-].
    destruct (zone_current_count st !! n) as [c0 |] eqn:Hc0; cbn; [| lia].
    specialize (Hpos n c0 Hc0). lia.
  - rewrite lookup_insert_ne by done. apply Hpos.
Qed.

Lemma positive_counts_update_zone_statistics dets st :
  positive_counts (update_zone_statistics dets st).
Proof.
  unfold update_zone_statistics.
  assert (Hstart : positive_counts
            {| zone_visitors := zone_visitors st; zone_current_count := ∅ |}).
  { intros n c. cbn. by rewrite lookup_empty. }
  revert Hstart. generalize {| zone_visitors := zone_visitors st; zone_current_count := ∅ |}.
  induction dets as [| det dets IH]; intros acc Hacc; [exact Hacc |].
  cbn [foldl]. apply IH. unfold count_detection.
  revert acc Hacc. induction (det_zones det) as [| z zs IHz]; intros acc Hacc; [exact Hacc |].
  cbn [foldl]. apply IHz. by apply positive_counts_count_in_zone.
Qed.

(** C6, as stated, fails: after a frame without detections the counter has no
    entry for a zone with recorded visitors, where the statement asks for an
    explicit entry of 0. *)
Lemma empty_frame_has_no_zero_entry :
  ¬ (∀ (st : detector) (n : string),
       n ∈ dom (zone_visitors st) →
       zone_current_count (update_zone_statistics [] st) !! n = Some 0).
Proof.
  intros Hclaim.
  specialize (Hclaim detector_lobby "Lobby").
  assert (Hknown : "Lobby" ∈ dom (zone_visitors detector_lobby)).
  { apply elem_of_dom. exists {[7]}. apply lookup_singleton_eq. }
  specialize (Hclaim Hknown). vm_compute in Hclaim. discriminate Hclaim.
Qed.

(** C6, amended: at the start of each frame's aggregation the current counter
    is emptied. A frame without detections leaves it empty, with no entry for
    any zone, so that a read with default 0 gives 0 for every zone and the
    store receives an empty zone-counts map, and it leaves the visitor sets
    unchanged; an entry made by a frame is the number of the frame's detections
    in that zone and is at least 1. *)
Theorem empty_frame_clears_counts (st : detector) (now : string)
    (shared : SharedState) :
  zone_current_count (update_zone_statistics [] st) = ∅
  ∧ zone_visitors (update_zone_statistics [] st) = zone_visitors st
  ∧ (∀ n, current_of (update_zone_statistics [] st) n = 0)
  ∧ (∀ dets n c,
       zone_current_count (update_zone_statistics dets st) !! n = Some c →
       c = zone_hits n dets ∧ 1 ≤ c)
  ∧ _zone_counts (aggregate_frame [] now (st, shared)).2 = ∅
  ∧ get_zone_counts (aggregate_frame [] now (st, shared)).2 = ∅.
Proof.
  split; [reflexivity |]. split; [reflexivity |]. split; [reflexivity |].
  split; [| split; [reflexivity |]].
  - intros dets n c Hc. split.
    + rewrite <- current_of_update_zone_statistics with (st := st).
      unfold current_of. by rewrite Hc.
    + by apply (positive_counts_update_zone_statistics dets st n c).
  - apply map_eq. intros k. rewrite get_zone_counts_lookup. cbn.
    by rewrite !lookup_empty.
Qed.

Lemma empty_frame_clears_counts_witness :
  zone_current_count (update_zone_statistics frame_2 detector_lobby) !! "A" = Some 2
  ∧ 2 = zone_hits "A" frame_2 ∧ 1 ≤ 2
  ∧ zone_current_count (update_zone_statistics [] detector_lobby) !! "Lobby" = None.
Proof.
  destruct (empty_frame_clears_counts detector_lobby "t" init)
    as (Hempty & _ & _ & Hentry & _).
  assert (Hc : zone_current_count (update_zone_statistics frame_2 detector_lobby) !! "A"
               = Some 2) by (by vm_compute).
  split; [exact Hc |].
  split; [exact (proj1 (Hentry frame_2 "A" 2 Hc)) |].
  split; [exact (proj2 (Hentry frame_2 "A" 2 Hc)) |].
  rewrite Hempty. apply lookup_empty.
Defined.

(** ** Zone membership of a detection *)

Lemma pointPolygonTest_nonempty (contour : list point) (pt : point) :
  contour ≠ [] → is_Some (cv2.pointPolygonTest contour pt).
Proof.
  intros Hne. unfold cv2.pointPolygonTest.
  destruct (last contour) as [v |] eqn:Hlast; [by eexists |].
  apply last_None in Hlast. contradiction.
Qed.

Lemma point_in_zone_nonempty (pt : point) (zone_points : list point) :
  zone_points ≠ [] → is_Some (point_in_zone pt zone_points).
Proof.
  intros Hne. unfold point_in_zone.
  destruct (pointPolygonTest_nonempty zone_points pt Hne) as [r ->].
  by eexists.
Qed.

(** With no empty polygon among the enabled zones, [get_person_zone] returns
    the names of the enabled zones that contain the point, one name per zone,
    in the order of the configuration. *)
Lemma get_person_zone_from_containing (zones : list zone) (pt : point)
    (acc : list string) :
  (∀ z, z ∈ zones → zone_enabled z = true → z_points z ≠ []) →
  get_person_zone_from zones pt acc = Some (acc ++ containing zones pt).
Proof.
  revert acc. induction zones as [| z zones IH]; intros acc Hpts.
  - cbn. by rewrite app_nil_r.
  - assert (Hrest : ∀ z', z' ∈ zones → zone_enabled z' = true → z_points z' ≠ []).
    { intros z' Hz'. apply Hpts. by right. }
    cbn [get_person_zone_from]. unfold containing. rewrite filter_cons.
    destruct (zone_enabled z) eqn:Hen; cbn [negb].
    + destruct (point_in_zone_nonempty pt (z_points z)) as [b Hb].
      { apply Hpts; [left | done]. }
      rewrite Hb. cbn. destruct b.
      * rewrite decide_True by done. rewrite IH by done.
        unfold containing. cbn [fmap list_fmap]. by rewrite <- app_assoc.
      * rewrite decide_False by (intros [_ [=]]). by rewrite IH.
    + rewrite decide_False by (intros [[=] _]). by rewrite IH.
Qed.

Lemma get_person_zone_containing (zones : list zone) (pt : point) :
  (∀ z, z ∈ zones → zone_enabled z = true → z_points z ≠ []) →
  get_person_zone zones pt = Some (containing zones pt).
Proof. intros Hpts. unfold get_person_zone. by rewrite get_person_zone_from_containing. Qed.

Lemma containing_elem (zones : list zone) (pt : point) (z : zone) :
  z ∈ zones → zone_enabled z = true →
  point_in_zone pt (z_points z) = Some true →
  zone_name_of z ∈ containing zones pt.
Proof.
  intros Hin Hen Hinside. unfold containing.
  apply list_elem_of_fmap. exists z. split; [done |].
  by apply list_elem_of_filter.
Qed.

Lemma hits_le_filter (n : string) (P : zone → Prop) `{!∀ z, Decision (P z)}
    (zones : list zone) :
  hits n (zone_name_of <$> filter P zones) ≤ hits n (zone_name_of <$> zones).
Proof.
  induction zones as [| z zones IH]; [reflexivity |].
  rewrite filter_cons. cbn [fmap list_fmap].
  destruct (decide (P z)); cbn [fmap list_fmap]; rewrite ?hits_cons;
    destruct (decide (zone_name_of z = n)); lia.
Qed.

Lemma hits_NoDup (n : string) (l : list string) : NoDup l → hits n l ≤ 1.
Proof.
  induction 1 as [| x l Hx Hnd IH]; [rewrite hits_nil; lia |].
  rewrite hits_cons. destruct (decide (x = n)) as [-> | Hne]; [| lia].
  rewrite hits_zero by done. lia.
Qed.

Lemma zone_hits_insert (n : string) (pre post : list detection) (d : detection) :
  zone_hits n (pre ++ d :: post) = zone_hits n (pre ++ post) + hits n (det_zones d).
Proof.
  unfold zone_hits. rewrite !fmap_app, !concat_app. cbn [fmap list_fmap concat].
  rewrite !hits_app. lia.
Qed.

(** C4: a detection whose centre is inside two enabled zones of different
    names gets both names from [get_person_zone], and the frame that holds it
    raises the current count of each of the two by the number of containing
    zones of that name, at least 1, and exactly 1 when the zone names are
    distinct, as against the same frame without the detection; the total count
    handed to the store is the length of the detection list, whatever the
    zones. *)
Theorem overlapping_zones_count_independently
    (cfg : list zone) (za zb : zone) (c : point) (id : Z)
    (pre post : list detection) (st : detector) (shared : SharedState)
    (now : string) :
  (∀ z, z ∈ cfg → zone_enabled z = true → z_points z ≠ []) →
  za ∈ cfg → zb ∈ cfg →
  zone_enabled za = true → zone_enabled zb = true →
  point_in_zone c (z_points za) = Some true →
  point_in_zone c (z_points zb) = Some true →
  zone_name_of za ≠ zone_name_of zb →
  ∃ zs, get_person_zone cfg c = Some zs
    ∧ 1 ≤ hits (zone_name_of za) zs ∧ 1 ≤ hits (zone_name_of zb) zs
    ∧ (NoDup (zone_name_of <$> cfg) →
       hits (zone_name_of za) zs = 1 ∧ hits (zone_name_of zb) zs = 1)
    ∧ (∀ n,
         current_of (aggregate_frame (pre ++ mkDetection id c zs :: post) now (st, shared)).1 n
         = current_of (aggregate_frame (pre ++ post) now (st, shared)).1 n + hits n zs)
    ∧ _total_count (aggregate_frame (pre ++ mkDetection id c zs :: post) now (st, shared)).2
      = Z.of_nat (length (pre ++ mkDetection id c zs :: post))
    ∧ _zone_counts (aggregate_frame (pre ++ mkDetection id c zs :: post) now (st, shared)).2
      = zone_current_count
          (aggregate_frame (pre ++ mkDetection id c zs :: post) now (st, shared)).1.
Proof.
  intros Hpts Ha Hb Hena Henb Hina Hinb Hnames.
  exists (containing cfg c).
  pose proof (containing_elem cfg c za Ha Hena Hina) as Hza.
  pose proof (containing_elem cfg c zb Hb Henb Hinb) as Hzb.
  split; [by apply get_person_zone_containing |].
  split; [by apply hits_pos |].
  split; [by apply hits_pos |].
  split; [| split; [| split; reflexivity]].
  - intros Hnd.
    assert (Hle : ∀ n, hits n (containing cfg c) ≤ 1).
    { intros n. unfold containing.
      etrans; [apply hits_le_filter | by apply hits_NoDup]. }
    pose proof (Hle (zone_name_of za)). pose proof (Hle (zone_name_of zb)).
    pose proof (hits_pos _ _ Hza). pose proof (hits_pos _ _ Hzb). lia.
  - intros n. cbn [aggregate_frame fst snd].
    rewrite !current_of_update_zone_statistics, zone_hits_insert. reflexivity.
Qed.

(** ** The point-in-polygon test on the boundary *)

Section Boundary.

Implicit Types (p v w a b : point) (cnt : list point).











End Boundary.


Lemma on_boundary_nonempty (pt : point) (zone_points : list point) :
  on_boundary pt zone_points → zone_points ≠ [].
Proof. intros (e & He & _) ->. by apply not_elem_of_nil in He. Qed.






Lemma overlapping_zones_count_independently_witness :
  ∃ zs, get_person_zone zones_ab (15, 15) = Some zs
    ∧ hits "A" zs = 1 ∧ hits "B" zs = 1
    ∧ current_of (aggregate_frame [mkDetection 1 (15, 15) zs] "t" (detector_0, init)).1 "A" = 1
    ∧ current_of (aggregate_frame [mkDetection 1 (15, 15) zs] "t" (detector_0, init)).1 "B" = 1
    ∧ _total_count (aggregate_frame [mkDetection 1 (15, 15) zs] "t" (detector_0, init)).2 = 1.
Proof.
  destruct (overlapping_zones_count_independently zones_ab
              (mkZone (Some "A") square_a None) (mkZone (Some "B") square_b (Some true))
              (15, 15) 1 [] [] detector_0 init "t")
    as (zs & Hzs & _ & _ & Hone & Hcur & Htotal & _).
  - intros z Hz _. unfold zones_ab in Hz. rewrite !elem_of_cons in Hz.
    destruct Hz as [-> | [-> | Hz]]; [discriminate | discriminate |].
    by apply not_elem_of_nil in Hz.
  - left.
  - right; left.
  - reflexivity.
  - reflexivity.
  - by vm_compute.
  - by vm_compute.
  - discriminate.
  - exists zs. destruct Hone as [HA HB].
    { cbn. repeat constructor; rewrite ?elem_of_cons; try apply not_elem_of_nil.
      intros [[=] | H]. by apply not_elem_of_nil in H. }
    change (hits "A" zs = 1) in HA. change (hits "B" zs = 1) in HB.
    split; [exact Hzs |]. split; [exact HA |]. split; [exact HB |].
    split; [| split].
    + pose proof (Hcur "A") as HcA. cbn [app] in HcA. rewrite HcA, HA. reflexivity.
    + pose proof (Hcur "B") as HcB. cbn [app] in HcB. rewrite HcB, HB. reflexivity.
    + exact Htotal.
Defined.

(** * Further properties of the store *)

(** ** The history ring under all calls *)

Lemma deque_append_length_le {A} (m : nat) (d : list A) (x : A) :
  (length d ≤ m)%nat → (length (Py.deque_append m d x) ≤ m)%nat.
Proof.
  intros Hd. unfold Py.deque_append. rewrite length_app. cbn [length].
  destruct (Nat.ltb_spec m (length d + 1)) as [Hfull | Hroom];
    rewrite ?length_drop, length_app; cbn [length]; lia.
Qed.

Lemma history_within_capacity_from (cs : list store_call) (s : SharedState) :
  (length (_history s) ≤ HISTORY_MAXLEN)%nat →
  (length (_history (run_calls cs s)) ≤ HISTORY_MAXLEN)%nat.
Proof.
  revert s. induction cs as [| c cs IH]; intros s Hs; [exact Hs |].
  unfold run_calls in *. cbn [foldl]. apply IH.
  destruct c; cbn [store_step update_counts clear_history set_global_threshold
                   set_zone_threshold set_detection_running _history length];
    [by apply deque_append_length_le | lia | done | done | done].
Qed.

(** X1: whatever calls the store has received since its creation (updates,
    history clears, threshold and status changes), the ring holds at most 3600
    samples, and [get_history] answers every limit, also 0 and negative ones,
    with a tail of the ring: never more than 3600 samples, never out of
    order. *)
Theorem history_never_exceeds_capacity (cs : list store_call) (limit : Z) :
  (length (_history (run_calls cs init)) ≤ 3600)%nat
  ∧ get_history limit (run_calls cs init) `suffix_of` _history (run_calls cs init)
  ∧ (length (get_history limit (run_calls cs init)) ≤ 3600)%nat.
Proof.
  assert (Hcap : (length (_history (run_calls cs init)) ≤ HISTORY_MAXLEN)%nat).
  { apply history_within_capacity_from. cbn. lia. }
  assert (Hsuf : get_history limit (run_calls cs init)
                 `suffix_of` _history (run_calls cs init)).
  { unfold get_history, Py.slice_from. apply suffix_drop. }
  pose proof HISTORY_MAXLEN_Z as Hmax.
  split; [lia |]. split; [exact Hsuf |].
  apply suffix_length in Hsuf. lia.
Qed.

(** X2: a limit of [-k], for [k] from 0 on, makes [get_history] return the
    ring without its [k] oldest samples (all of it for [k = 0], nothing once
    [k] reaches the number of samples held). *)
Theorem get_history_nonpositive_limit (s : SharedState) (k : Z) :
  0 ≤ k →
  get_history (- k) s = drop (Z.to_nat k) (_history s).
Proof.
  intros Hk. unfold get_history, Py.slice_from. rewrite Z.opp_involutive.
  destruct (Z.ltb_spec k 0) as [Hneg | _]; [lia |].
  destruct (Z.le_gt_cases k (Z.of_nat (length (_history s)))) as [Hle | Hgt].
  - by rewrite Z.min_l by lia.
  - rewrite Z.min_r by lia. rewrite !drop_ge by lia. reflexivity.
Qed.

Lemma get_history_nonpositive_limit_witness :
  0 ≤ 1
  ∧ get_history (- 1) (run_updates [update_a; update_b] init) = [history_entry_of update_b].
Proof.
  split; [lia |].
  rewrite (get_history_nonpositive_limit _ 1) by lia. reflexivity.
Defined.

Lemma history_run_updates_from (us : list update) (s : SharedState) :
  (length (_history s) ≤ HISTORY_MAXLEN)%nat →
  _history (run_updates us s)
  = Py.lastn HISTORY_MAXLEN (_history s ++ (history_entry_of <$> us)).
Proof.
  intros Hs. induction us as [| u us IH] using rev_ind.
  - cbn. rewrite app_nil_r. symmetry. by apply lastn_all.
  - unfold run_updates in *. rewrite foldl_snoc, fmap_app, app_assoc.
    cbn [update_counts _history fmap list_fmap].
    rewrite IH. apply deque_append_lastn.
Qed.

(** X3: after [clear_history], nothing recorded before is returned: for a
    limit of at least 1, [get_history] gives the last
    [min(limit, number of updates since the clear, 3600)] samples of the
    updates made since; the clear itself leaves the counts, the visitors, the
    thresholds and the alerts as they were. *)
Theorem clear_history_forgets (s : SharedState) (us : list update) (limit : Z) :
  1 ≤ limit →
  get_history limit (run_updates us (clear_history s))
  = Py.lastn (history_window limit (length us)) (history_entry_of <$> us)
  ∧ get_zone_counts (clear_history s) = get_zone_counts s
  ∧ check_alerts (clear_history s) = check_alerts s
  ∧ get_total_count (clear_history s) = get_total_count s.
Proof.
  intros Hlimit. split; [| done].
  unfold get_history. rewrite slice_from_neg by assumption.
  rewrite history_run_updates_from by (cbn; lia).
  cbn [clear_history _history app].
  rewrite lastn_lastn, lastn_min_length, length_fmap.
  f_equal. unfold history_window. pose proof HISTORY_MAXLEN_Z. lia.
Qed.

Lemma clear_history_forgets_witness :
  1 ≤ 5
  ∧ get_history 5 (run_updates [update_b] (clear_history (run_updates [update_a] init)))
    = [history_entry_of update_b].
Proof.
  split; [lia |].
  destruct (clear_history_forgets (run_updates [update_a] init) [update_b] 5 ltac:(lia))
    as [Heq _].
  rewrite Heq. reflexivity.
Defined.

(** X4: the newest sample of the ring always agrees with the current
    snapshot: right after an [update_counts], in any state of the store,
    [get_history 1] is the one sample that carries the current total, the
    current zone counts and the time of the last update. *)
Theorem latest_sample_is_current (u : update) (s : SharedState) :
  ∃ t, get_last_update (update_counts u s) = Some t
       ∧ get_history 1 (update_counts u s)
         = [{| timestamp := t;
               total_count := get_total_count (update_counts u s);
               zone_counts := _zone_counts (update_counts u s) |}].
Proof.
  exists (u_now u). split; [reflexivity |].
  unfold get_history. rewrite slice_from_neg by lia.
  cbn [update_counts _history get_total_count _total_count _zone_counts].
  change (HistoryEntry (u_now u) (u_total_count u) (u_zone_counts u))
    with (history_entry_of u).
  unfold Py.deque_append.
  assert (Hlast : ∀ l : list history_entry,
            Py.lastn (Z.to_nat 1) (l ++ [history_entry_of u]) = [history_entry_of u]).
  { intros l. unfold Py.lastn. rewrite length_app. cbn [length].
    replace (length l + 1 - Z.to_nat 1)%nat with (length l) by lia.
    by rewrite drop_app_length. }
  destruct (Nat.ltb_spec HISTORY_MAXLEN (length (_history s ++ [history_entry_of u])))
    as [Hfull | Hroom]; [| apply Hlast].
  destruct (_history s) as [| e h]; [| cbn [app drop]; apply Hlast].
  cbn in Hfull. unfold HISTORY_MAXLEN in Hfull. lia.
Qed.

(** ** Thresholds *)

Lemma run_updates_thresholds (us : list update) (s : SharedState) :
  _zone_thresholds (run_updates us s) = _zone_thresholds s
  ∧ _global_threshold (run_updates us s) = _global_threshold s.
Proof.
  revert s. induction us as [| u us IH]; intros s; [done |].
  unfold run_updates in *. cbn [foldl]. by destruct (IH (update_counts u s)) as [-> ->].
Qed.

(** X5: a zone threshold that has been set is read back unchanged after any
    number of [update_counts] calls, setting it leaves the thresholds of the
    other zones and the global threshold as they were, and a zone whose
    threshold was never set reads as [None]. *)
Theorem zone_threshold_round_trip (s : SharedState) (zone_name : string)
    (threshold : Z) (us : list update) :
  get_zone_threshold zone_name (run_updates us (set_zone_threshold zone_name threshold s))
  = Some threshold
  ∧ (∀ other, other ≠ zone_name →
       get_zone_threshold other (run_updates us (set_zone_threshold zone_name threshold s))
       = get_zone_threshold other s)
  ∧ get_global_threshold (run_updates us (set_zone_threshold zone_name threshold s))
    = get_global_threshold s
  ∧ get_zone_threshold zone_name (run_updates us init) = None.
Proof.
  unfold get_zone_threshold, get_global_threshold.
  destruct (run_updates_thresholds us (set_zone_threshold zone_name threshold s))
    as [-> ->].
  destruct (run_updates_thresholds us init) as [-> _].
  cbn [set_zone_threshold _zone_thresholds _global_threshold init].
  split; [apply lookup_insert_eq |].
  split; [intros other Hne; by apply lookup_insert_ne |].
  split; [reflexivity | apply lookup_empty].
Qed.

Lemma set_threshold_valid (g : option Z) (n : option string) (t : option Z)
    (s s' : SharedState) :
  thresholds_valid s → set_threshold g n t s = Some s' → thresholds_valid s'.
Proof.
  intros (Hg & Hz & He). unfold set_threshold.
  destruct (query_ge_1 g && query_ge_1 t) eqn:Hq; [| discriminate].
  apply andb_true_iff in Hq as [Hqg Hqt]. intros [= <-].
  assert (Hs1 : thresholds_valid
                  match g with Some g0 => set_global_threshold g0 s | None => s end).
  { destruct g as [g0 |]; [| done].
    cbn in Hqg. apply Z.leb_le in Hqg. done. }
  destruct n as [n |]; [| exact Hs1]. destruct t as [t0 |]; [| exact Hs1].
  case_bool_decide as Hn; [exact Hs1 |].
  cbn in Hqt. apply Z.leb_le in Hqt.
  destruct Hs1 as (Hg1 & Hz1 & He1).
  split; [| split].
  - by destruct g.
  - intros z t'. cbn [set_zone_threshold _zone_thresholds].
    destruct (decide (n = z)) as [-> | Hne].
    + rewrite lookup_insert_eq. by intros [= <-].
    + rewrite lookup_insert_ne by done. apply Hz1.
  - cbn [set_zone_threshold _zone_thresholds]. by rewrite lookup_insert_ne.
Qed.

Lemma run_api_valid (cs : list api_call) (s : SharedState) :
  thresholds_valid s → thresholds_valid (run_api cs s).
Proof.
  revert s. induction cs as [| c cs IH]; intros s Hs; [exact Hs |].
  unfold run_api in *. cbn [foldl]. apply IH.
  destruct c as [u | g n t]; cbn [api_step].
  - exact Hs.
  - destruct (set_threshold g n t s) as [s' |] eqn:Hset; [| exact Hs].
    by apply (set_threshold_valid g n t s s').
Qed.

(** X6: in a store that receives its thresholds through the
    [/alerts/threshold] request only, every stored threshold is at least 1 and
    none is stored under the empty zone name; there, a zone of a name other
    than ["global"] has an alert key exactly when it is in the current zone
    counts with a threshold strictly below its current count. *)
Theorem api_thresholds_alert_exactly (cs : list api_call) :
  1 ≤ get_global_threshold (run_api cs init)
  ∧ (∀ z t, get_zone_threshold z (run_api cs init) = Some t → 1 ≤ t)
  ∧ get_zone_threshold "" (run_api cs init) = None
  ∧ (∀ z, z ≠ "global" →
       (z ∈ dom (check_alerts (run_api cs init))
        ↔ ∃ c t, _zone_counts (run_api cs init) !! z = Some c
                 ∧ get_zone_threshold z (run_api cs init) = Some t ∧ t < c)).
Proof.
  assert (Hvalid : thresholds_valid (run_api cs init)).
  { apply run_api_valid. split; [cbn; lia |]. split; [| done].
    intros z t. cbn. by rewrite lookup_empty. }
  destruct Hvalid as (Hg & Hz & He).
  split; [exact Hg |]. split; [exact Hz |]. split; [exact He |].
  intros z Hne. unfold get_zone_threshold.
  rewrite elem_of_dom, check_alerts_lookup.
  destruct (zone_alert_of _ _ z) as [a |] eqn:Ha.
  - assert (Hs : is_Some (zone_alert_of (_zone_thresholds (run_api cs init))
                            (_zone_counts (run_api cs init)) z)) by (by eexists).
    apply zone_alert_of_Some in Hs as (c & t & Hc & Ht & _ & Hlt).
    split; [intros _; by exists c, t | by eexists].
  - rewrite decide_False by tauto. split; [by intros [? ?] |].
    intros (c & t & Hc & Ht & Hlt). exfalso.
    assert (Hs : is_Some (zone_alert_of (_zone_thresholds (run_api cs init))
                            (_zone_counts (run_api cs init)) z)).
    { apply zone_alert_of_Some. exists c, t. specialize (Hz z t Ht).
      repeat split; [done | done | lia | done]. }
    rewrite Ha in Hs. by destruct Hs.
Qed.

Lemma api_thresholds_alert_exactly_witness :
  get_zone_threshold "Lobby"
    (run_api [ApiSetThreshold None (Some "Lobby") (Some 0);
              ApiSetThreshold (Some 3) (Some "Lobby") (Some 1);
              ApiUpdateCounts (mkUpdate 2 {["Lobby" := 2]} ∅ [] "t")] init) = Some 1
  ∧ "Lobby" ∈ dom (check_alerts
      (run_api [ApiSetThreshold None (Some "Lobby") (Some 0);
                ApiSetThreshold (Some 3) (Some "Lobby") (Some 1);
                ApiUpdateCounts (mkUpdate 2 {["Lobby" := 2]} ∅ [] "t")] init)).
Proof.
  destruct (api_thresholds_alert_exactly
              [ApiSetThreshold None (Some "Lobby") (Some 0);
               ApiSetThreshold (Some 3) (Some "Lobby") (Some 1);
               ApiUpdateCounts (mkUpdate 2 {["Lobby" := 2]} ∅ [] "t")])
    as (_ & _ & _ & Hiff).
  split; [reflexivity |].
  apply Hiff; [discriminate |].
  exists 2, 1. repeat split; lia.
Defined.

(** ** What the store reports after a frame *)

Lemma run_timed_frames_detector (frames : list (list detection * string))
    (st : detector * SharedState) :
  (run_timed_frames frames st).1 = run_frames (fst <$> frames) st.1.
Proof.
  revert st. induction frames as [| [dets now] frames IH]; intros st; [done |].
  unfold run_timed_frames, run_frames in *. cbn [foldl fmap list_fmap fst].
  by rewrite IH.
Qed.

Lemma aggregate_frame_store_visitors (dets : list detection) (now : string)
    (st : detector * SharedState) :
  _zone_visitors (aggregate_frame dets now st).2
  = zone_visitors (aggregate_frame dets now st).1.
Proof. reflexivity. Qed.

Lemma run_timed_frames_store_visitors (frames : list (list detection * string))
    (st : detector * SharedState) :
  _zone_visitors st.2 = zone_visitors st.1 →
  _zone_visitors (run_timed_frames frames st).2
  = zone_visitors (run_timed_frames frames st).1.
Proof.
  revert st. induction frames as [| [dets now] frames IH]; intros st Hst; [done |].
  unfold run_timed_frames in *. cbn [foldl]. by apply IH.
Qed.

Lemma zone_hits_filter (n : string) (dets : list detection) :
  (∀ d, d ∈ dets → NoDup (det_zones d)) →
  zone_hits n dets = Z.of_nat (length (filter (fun d => n ∈ det_zones d) dets)).
Proof.
  induction dets as [| d dets IH]; intros Hnd; [reflexivity |].
  unfold zone_hits in *. cbn [fmap list_fmap concat].
  rewrite hits_app, IH by (intros d' Hd'; apply Hnd; by right).
  rewrite filter_cons.
  pose proof (hits_NoDup n (det_zones d) (Hnd d ltac:(left))) as Hle.
  destruct (decide (n ∈ det_zones d)) as [Hin | Hnot].
  - pose proof (hits_pos n _ Hin). cbn [length]. lia.
  - rewrite hits_zero by done. lia.
Qed.

Lemma NoDup_ids_filter (P : detection → Prop) `{!∀ d, Decision (P d)}
    (dets : list detection) :
  NoDup (det_id <$> dets) → NoDup (det_id <$> filter P dets).
Proof.
  induction dets as [| d dets IH]; [done |].
  cbn [fmap list_fmap]. rewrite NoDup_cons. intros [Hd Hnd].
  rewrite filter_cons. destruct (decide (P d)); [| by apply IH].
  cbn [fmap list_fmap]. apply NoDup_cons. split; [| by apply IH].
  intros (d' & Heq & Hd')%list_elem_of_fmap. apply Hd.
  apply list_elem_of_fmap. exists d'. split; [done |].
  by apply list_elem_of_filter in Hd' as [_ ?].
Qed.

(** X7: when the tracker gives each detection of a frame an identity of its
    own and no detection lists a zone twice, every zone that [get_zone_counts]
    reports after the frame has a current count of at least 1 that exceeds
    neither its cumulative visitor total nor the total count of the frame, and
    there are as many coordinates as the total count says. *)
Theorem reported_counts_consistent (dets : list detection) (now : string)
    (st : detector) (shared : SharedState) (n : string) (zs : zone_stats) :
  NoDup (det_id <$> dets) →
  (∀ d, d ∈ dets → NoDup (det_zones d)) →
  get_zone_counts (aggregate_frame dets now (st, shared)).2 !! n = Some zs →
  1 ≤ current zs
  ∧ current zs ≤ Z.of_nat (total_visitors zs)
  ∧ current zs ≤ get_total_count (aggregate_frame dets now (st, shared)).2
  ∧ Z.of_nat (length (get_coordinates (aggregate_frame dets now (st, shared)).2))
    = get_total_count (aggregate_frame dets now (st, shared)).2.
Proof.
  intros Hids Hzones. rewrite get_zone_counts_lookup.
  cbn [aggregate_frame fst snd update_shared_state update_counts shared_update
       _zone_counts _zone_visitors u_zone_counts u_zone_visitors get_total_count
       _total_count u_total_count get_coordinates _person_coordinates u_coordinates].
  destruct (zone_current_count (update_zone_statistics dets st) !! n) as [c |] eqn:Hc;
    [| discriminate].
  intros [= <-]. cbn [current total_visitors].
  pose proof (positive_counts_update_zone_statistics dets st n c Hc) as Hpos.
  assert (Hhits : c = zone_hits n dets).
  { rewrite <- current_of_update_zone_statistics with (st := st).
    unfold current_of. by rewrite Hc. }
  rewrite (zone_hits_filter n dets Hzones) in Hhits.
  pose proof (length_filter (fun d => n ∈ det_zones d) dets) as Hlen.
  split; [exact Hpos |]. split; [| split; [lia | by rewrite length_fmap]].
  change (default ∅ (zone_visitors (update_zone_statistics dets st) !! n))
    with (visitors_of (update_zone_statistics dets st) n).
  rewrite visitors_of_update_zone_statistics.
  assert (Hsize : size (ids_in_zone n dets)
                  = length (filter (fun d => n ∈ det_zones d) dets)).
  { unfold ids_in_zone. rewrite size_list_to_set by (by apply NoDup_ids_filter).
    by rewrite length_fmap. }
  assert (Hsub : (size (ids_in_zone n dets)
                  ≤ size (visitors_of st n ∪ ids_in_zone n dets))%nat).
  { apply subseteq_size. set_solver. }
  lia.
Qed.

Lemma reported_counts_consistent_witness :
  get_zone_counts (aggregate_frame frame_2 "t" (update_zone_statistics frame_1 detector_0, init)).2
    !! "A" = Some (mkZoneStats 2 4)
  ∧ 1 ≤ 2 ∧ 2 ≤ Z.of_nat 4.
Proof.
  assert (Hz : get_zone_counts
                 (aggregate_frame frame_2 "t"
                    (update_zone_statistics frame_1 detector_0, init)).2
                 !! "A" = Some (mkZoneStats 2 4)) by (by vm_compute).
  split; [exact Hz |].
  destruct (reported_counts_consistent frame_2 "t"
              (update_zone_statistics frame_1 detector_0) init "A" (mkZoneStats 2 4))
    as (H1 & H2 & _).
  - cbn. repeat constructor; rewrite ?elem_of_cons; try apply not_elem_of_nil.
    intros [[=] | H]. by apply not_elem_of_nil in H.
  - intros d Hd. unfold frame_2 in Hd. rewrite !elem_of_cons in Hd.
    destruct Hd as [-> | [-> | Hd]]; [| | by apply not_elem_of_nil in Hd];
      cbn; repeat constructor; apply not_elem_of_nil.
  - exact Hz.
  - split; [exact H1 | exact H2].
Defined.

(** X8: the visitor total that the store reports for a zone never goes down:
    if [get_zone_counts] reports a zone after a frame and again after any
    number of further frames, the later total is at least the earlier one. *)
Theorem reported_visitors_never_decrease (dets : list detection) (now : string)
    (more : list (list detection * string)) (st : detector) (shared : SharedState)
    (n : string) (earlier later : zone_stats) :
  get_zone_counts (aggregate_frame dets now (st, shared)).2 !! n = Some earlier →
  get_zone_counts (run_timed_frames more (aggregate_frame dets now (st, shared))).2 !! n
  = Some later →
  (total_visitors earlier ≤ total_visitors later)%nat.
Proof.
  rewrite !get_zone_counts_lookup.
  rewrite run_timed_frames_store_visitors by reflexivity.
  rewrite aggregate_frame_store_visitors, run_timed_frames_detector.
  destruct (_zone_counts (aggregate_frame dets now (st, shared)).2 !! n) as [c1 |];
    [| discriminate].
  destruct (_zone_counts (run_timed_frames more (aggregate_frame dets now (st, shared))).2
              !! n) as [c2 |]; [| discriminate].
  intros [= <-] [= <-]. cbn [total_visitors].
  apply subseteq_size.
  apply (visitors_of_run_frames (fst <$> more)
           (aggregate_frame dets now (st, shared)).1 n).
Qed.

Lemma reported_visitors_never_decrease_witness :
  get_zone_counts (aggregate_frame frame_1 "t1" (detector_0, init)).2 !! "A"
  = Some (mkZoneStats 3 3)
  ∧ get_zone_counts
      (run_timed_frames [(frame_2, "t2")] (aggregate_frame frame_1 "t1" (detector_0, init))).2
      !! "A" = Some (mkZoneStats 2 4)
  ∧ (3 ≤ 4)%nat.
Proof.
  assert (H1 : get_zone_counts (aggregate_frame frame_1 "t1" (detector_0, init)).2 !! "A"
               = Some (mkZoneStats 3 3)) by (by vm_compute).
  assert (H2 : get_zone_counts
                 (run_timed_frames [(frame_2, "t2")]
                    (aggregate_frame frame_1 "t1" (detector_0, init))).2 !! "A"
               = Some (mkZoneStats 2 4)) by (by vm_compute).
  split; [exact H1 |]. split; [exact H2 |].
  exact (reported_visitors_never_decrease frame_1 "t1" [(frame_2, "t2")]
           detector_0 init "A" _ _ H1 H2).
Defined.

(** * Further properties of the detector *)

(** ** Disabled zones *)

Lemma get_person_zone_from_skips_disabled (cfg : list zone) (pt : point)
    (acc : list string) :
  get_person_zone_from cfg pt acc
  = get_person_zone_from (filter (fun z => zone_enabled z = true) cfg) pt acc.
Proof.
  revert acc. induction cfg as [| z cfg IH]; intros acc; [reflexivity |].
  rewrite filter_cons. cbn [get_person_zone_from].
  destruct (zone_enabled z) eqn:Hen; cbn [negb].
  - rewrite decide_True by done. cbn [get_person_zone_from]. rewrite Hen. cbn [negb].
    destruct (point_in_zone pt (z_points z)) as [inside |]; [| reflexivity].
    cbn. apply IH.
  - rewrite decide_False by done. apply IH.
Qed.

(** X9: a disabled zone has no part in [get_person_zone]: the result, an
    exception included, is that of the configuration without its disabled
    zones, so the polygon of a disabled zone is never tested. *)
Theorem get_person_zone_skips_disabled (cfg : list zone) (pt : point) :
  get_person_zone cfg pt
  = get_person_zone (filter (fun z => zone_enabled z = true) cfg) pt.
Proof. apply get_person_zone_from_skips_disabled. Qed.

(** ** Zones drawn with the mouse *)

Lemma ui_step_three_points (d : drawing) (e : ui_event) :
  Forall three_points (zones d) → Forall three_points (zones (ui_step d e)).
Proof.
  intros Hd. destruct e as [event x y | |]; cbn [ui_step zones]; [| done | done].
  unfold mouse_callback. destruct (drawing_mode d); cbn [negb]; [| done].
  destruct event; cbn [zones]; try done.
  - destruct (Nat.leb_spec 3 (length (current_zone_points d))) as [Hlen | _]; [| done].
    unfold finish_zone. cbn [zones]. apply Forall_app. split; [done |].
    by apply Forall_singleton.
  - by destruct (0 <? length (current_zone_points d))%nat.
Qed.

Lemma run_ui_three_points (es : list ui_event) (d : drawing) :
  Forall three_points (zones d) → Forall three_points (zones (run_ui es d)).
Proof.
  revert d. induction es as [| e es IH]; intros d Hd; [exact Hd |].
  unfold run_ui in *. cbn [foldl]. by apply IH, ui_step_three_points.
Qed.

(** X10: whatever the user clicks and types, a zone that the detector adds
    from the mouse has at least 3 points: if the zones loaded at the start
    have, so have all zones afterwards, and then [get_person_zone] does not
    raise and gives, for every point, the names of the enabled zones that
    contain it. *)
Theorem drawn_zones_have_three_points (es : list ui_event) (d : drawing) :
  Forall (fun z => (3 ≤ length (z_points z))%nat) (zones d) →
  Forall (fun z => (3 ≤ length (z_points z))%nat) (zones (run_ui es d))
  ∧ ∀ pt, get_person_zone (zones (run_ui es d)) pt
          = Some (containing (zones (run_ui es d)) pt).
Proof.
  intros Hd. pose proof (run_ui_three_points es d Hd) as Hall.
  split; [exact Hall |].
  intros pt. apply get_person_zone_containing.
  intros z Hz _ Hempty. rewrite Forall_forall in Hall.
  specialize (Hall z Hz). unfold three_points in Hall.
  rewrite Hempty in Hall. cbn in Hall. lia.
Qed.

Lemma drawn_zones_have_three_points_witness :
  zones (run_ui ui_triangle drawing_0)
  = [mkZone (Some "Zone_1") [(0, 0); (10, 0); (0, 10)] (Some true)]
  ∧ get_person_zone (zones (run_ui ui_triangle drawing_0)) (2, 2) = Some ["Zone_1"].
Proof.
  destruct (drawn_zones_have_three_points ui_triangle drawing_0) as [_ Hzone].
  - constructor.
  - split; [reflexivity |]. rewrite Hzone. by vm_compute.
Defined.

Lemma ui_step_numbered (d : drawing) (e : ui_event) :
  numbered (zones d) → numbered (zones (ui_step d e)).
Proof.
  intros Hd. destruct e as [event x y | |]; cbn [ui_step zones]; [| done | done].
  unfold mouse_callback. destruct (drawing_mode d); cbn [negb]; [| done].
  destruct event; cbn [zones]; try done.
  - destruct (3 <=? length (current_zone_points d))%nat; [| done].
    unfold finish_zone. cbn [zones]. intros i z Hi.
    apply lookup_app_Some in Hi as [Hi | [Hge Hi]]; [by apply Hd |].
    apply list_lookup_singleton_Some in Hi as [Hi <-]. cbn [z_name].
    do 3 f_equal. lia.
  - by destruct (0 <? length (current_zone_points d))%nat.
Qed.

Lemma run_ui_numbered (es : list ui_event) (d : drawing) :
  numbered (zones d) → numbered (zones (run_ui es d)).
Proof.
  revert d. induction es as [| e es IH]; intros d Hd; [exact Hd |].
  unfold run_ui in *. cbn [foldl]. by apply IH, ui_step_numbered.
Qed.

(** X11: started without zones, the detector names the zones drawn with the
    mouse Zone_1, Zone_2, ... in the order of their creation, so that no two
    of them share a name. *)
Theorem drawn_zone_names_distinct (es : list ui_event) (d : drawing) :
  zones d = [] →
  (∀ i z, zones (run_ui es d) !! i = Some z →
          zone_name_of z = "Zone_" +:+ pretty (S i))
  ∧ NoDup (zone_name_of <$> zones (run_ui es d)).
Proof.
  intros Hempty.
  assert (Hnum : numbered (zones (run_ui es d))).
  { apply run_ui_numbered. rewrite Hempty. intros i z Hi. by rewrite lookup_nil in Hi. }
  assert (Hname : ∀ i z, zones (run_ui es d) !! i = Some z →
                         zone_name_of z = "Zone_" +:+ pretty (S i)).
  { intros i z Hi. unfold zone_name_of. by rewrite (Hnum i z Hi). }
  split; [exact Hname |].
  apply NoDup_alt. intros i j name Hi Hj.
  rewrite list_lookup_fmap in Hi, Hj.
  destruct (zones (run_ui es d) !! i) as [zi |] eqn:Hzi; [| discriminate].
  destruct (zones (run_ui es d) !! j) as [zj |] eqn:Hzj; [| discriminate].
  cbn in Hi, Hj. injection Hi as Hi. injection Hj as Hj.
  rewrite (Hname i zi Hzi) in Hi. rewrite (Hname j zj Hzj) in Hj.
  rewrite <- Hj in Hi. cbn in Hi. injection Hi as Hi.
  assert (Hij : S i = S j) by (by apply (inj (@pretty nat _))).
  lia.
Qed.

Lemma drawn_zone_names_distinct_witness :
  zone_name_of <$> zones (run_ui (ui_triangle ++ ui_triangle) drawing_0)
  = ["Zone_1"; "Zone_2"]
  ∧ NoDup (zone_name_of <$> zones (run_ui (ui_triangle ++ ui_triangle) drawing_0)).
Proof.
  split; [reflexivity |].
  apply (drawn_zone_names_distinct (ui_triangle ++ ui_triangle) drawing_0).
  reflexivity.
Defined.

(** ** Tracking trails *)

Lemma record_trail_lookup (track_history : gmap Z (list point)) (seen : Z * point)
    (id : Z) :
  default [] (record_trail track_history seen !! id)
  = if decide (seen.1 = id)
    then Py.deque_append 30 (default [] (track_history !! id)) seen.2
    else default [] (track_history !! id).
Proof.
  unfold record_trail. destruct (decide (seen.1 = id)) as [<- | Hne].
  - by rewrite lookup_insert_eq.
  - by rewrite lookup_insert_ne.
Qed.

(** X12: the trail kept for a tracking identity is made of the last 30
    centres seen for that identity, oldest first, and never has more than 30
    points; the observations of other identities do not touch it. *)
Theorem trail_is_last_30 (observed : list (Z * point)) (id : Z) :
  default [] (record_trails observed ∅ !! id)
  = Py.lastn 30 (snd <$> filter (fun seen => seen.1 = id) observed)
  ∧ (length (default [] (record_trails observed ∅ !! id)) ≤ 30)%nat.
Proof.
  assert (Heq : default [] (record_trails observed ∅ !! id)
                = Py.lastn 30 (snd <$> filter (fun seen => seen.1 = id) observed)).
  { induction observed as [| seen observed IH] using rev_ind; [reflexivity |].
    unfold record_trails in *. rewrite foldl_snoc, record_trail_lookup, filter_app.
    rewrite filter_cons, filter_nil.
    destruct (decide (seen.1 = id)) as [Hid | Hne].
    - rewrite IH, fmap_app. apply deque_append_lastn.
    - by rewrite app_nil_r. }
  split; [exact Heq |]. rewrite Heq, lastn_length. lia.
Qed.

(** ** The frame loop *)

Lemma speed_key_bounds (key k : Z) :
  1 ≤ k → 1 ≤ speed_key key k ∧ speed_key key k ≤ Z.max 10 k.
Proof.
  intros Hk. unfold speed_key.
  destruct ((key =? 43) || (key =? 61)); [lia |].
  destruct ((key =? 45) || (key =? 95)); lia.
Qed.

Lemma run_loop_bounds (keys : list Z) (l : video_loop) (top : Z) :
  1 ≤ frame_skip l → frame_skip l ≤ top → 10 ≤ top →
  ∃ l', run_loop keys l = Some l'
        ∧ 1 ≤ frame_skip l' ≤ top
        ∧ 0 ≤ frame_count l' - frame_count l ≤ frames_read l' - frames_read l
        ∧ frames_read l' - frames_read l ≤ Z.of_nat (length keys).
Proof.
  revert l. induction keys as [| key keys IH]; intros l Hlow Hhigh Htop.
  - exists l. cbn. repeat split; lia.
  - cbn [run_loop]. unfold read_frame.
    destruct (Z.eqb_spec (frame_skip l) 0) as [Hz | _]; [lia |].
    pose proof (speed_key_bounds key (frame_skip l) Hlow) as [Hs1 Hs2].
    destruct (negb ((frames_read l + 1) mod frame_skip l =? 0)).
    + cbn [frame_count]. rewrite (proj2 (Z.eqb_neq _ _)) by lia. cbn [andb].
      destruct (IH {| frames_read := frames_read l + 1;
                      frame_count := frame_count l;
                      frame_skip := frame_skip l |}) as (l' & -> & H1 & H2 & H3);
        cbn [frame_skip]; try lia.
      exists l'. cbn [frames_read frame_count length] in *.
      repeat split; lia.
    + cbn [frame_count]. rewrite Z.eqb_refl. cbn [andb].
      destruct (key =? 113).
      * eexists. split; [reflexivity |].
        cbn [frames_read frame_count frame_skip length]. repeat split; lia.
      * destruct (IH {| frames_read := frames_read l + 1;
                        frame_count := frame_count l + 1;
                        frame_skip := speed_key key (frame_skip l) |})
          as (l' & -> & H1 & H2 & H3); cbn [frame_skip]; try lia.
        exists l'. cbn [frames_read frame_count length] in *.
        repeat split; lia.
Qed.

(** X13: for every speed and every sequence of keys, the frame loop never
    divides by a frame skip of 0: the frame skip stays at least 1, and at most
    10 unless the speed asked for at the start was higher; no more frames are
    processed than were read. *)
Theorem frame_skip_stays_positive (speed : Z) (keys : list Z) :
  ∃ l, run_loop keys (start_loop speed) = Some l
       ∧ 1 ≤ frame_skip l ≤ Z.max 10 speed
       ∧ 0 ≤ frame_count l ≤ frames_read l
       ∧ frames_read l ≤ Z.of_nat (length keys).
Proof.
  destruct (run_loop_bounds keys (start_loop speed) (Z.max 10 speed))
    as (l & Hrun & Hskip & Hcount & Hread); cbn [start_loop frame_skip]; try lia.
  exists l. cbn [start_loop frames_read frame_count] in *.
  repeat split; [done | lia ..].
Qed.

Lemma div_succ (r k : Z) :
  0 ≤ r → 1 ≤ k →
  (r + 1) / k = r / k + (if (r + 1) mod k =? 0 then 1 else 0).
Proof.
  intros Hr Hk.
  pose proof (Z.div_mod r k ltac:(lia)) as Hdm.
  pose proof (Z.mod_pos_bound r k ltac:(lia)) as Hm.
  destruct (Z.eq_dec (r mod k + 1) k) as [Hfull | Hroom].
  - assert (Hq : (r + 1) / k = r / k + 1).
    { symmetry. apply (Z.div_unique (r + 1) k (r / k + 1) 0); lia. }
    assert (Hmod : (r + 1) mod k = 0).
    { symmetry. apply (Z.mod_unique (r + 1) k (r / k + 1) 0); lia. }
    rewrite Hq, Hmod. reflexivity.
  - assert (Hq : (r + 1) / k = r / k).
    { symmetry. apply (Z.div_unique (r + 1) k (r / k) (r mod k + 1)); lia. }
    assert (Hmod : (r + 1) mod k = r mod k + 1).
    { symmetry. apply (Z.mod_unique (r + 1) k (r / k) (r mod k + 1)); lia. }
    rewrite Hq, Hmod. rewrite (proj2 (Z.eqb_neq _ _)) by lia. lia.
Qed.

Lemma run_loop_steady (keys : list Z) (l : video_loop) :
  Forall plain_key keys → 1 ≤ frame_skip l → 0 ≤ frames_read l →
  frame_count l = frames_read l / frame_skip l →
  run_loop keys l
  = Some {| frames_read := frames_read l + Z.of_nat (length keys);
            frame_count := (frames_read l + Z.of_nat (length keys)) / frame_skip l;
            frame_skip := frame_skip l |}.
Proof.
  revert l. induction keys as [| key keys IH]; intros l Hkeys Hskip Hread Hcount.
  - cbn. rewrite Z.add_0_r, <- Hcount. by destruct l.
  - apply Forall_cons in Hkeys as [Hkey Hkeys].
    unfold plain_key in Hkey.
    cbn [run_loop]. unfold read_frame.
    destruct (Z.eqb_spec (frame_skip l) 0) as [Hz | _]; [lia |].
    pose proof (div_succ (frames_read l) (frame_skip l) Hread Hskip) as Hdiv.
    destruct ((frames_read l + 1) mod frame_skip l =? 0) eqn:Hmod; cbn [negb].
    + cbn [frame_count]. rewrite Z.eqb_refl. cbn [andb].
      rewrite (proj2 (Z.eqb_neq key 113)) by (intros ->; apply Hkey; set_solver).
      assert (Hsame : speed_key key (frame_skip l) = frame_skip l).
      { unfold speed_key.
        rewrite (proj2 (Z.eqb_neq key 43)) by (intros ->; apply Hkey; set_solver).
        rewrite (proj2 (Z.eqb_neq key 61)) by (intros ->; apply Hkey; set_solver).
        rewrite (proj2 (Z.eqb_neq key 45)) by (intros ->; apply Hkey; set_solver).
        rewrite (proj2 (Z.eqb_neq key 95)) by (intros ->; apply Hkey; set_solver).
        reflexivity. }
      rewrite Hsame, IH; cbn [frames_read frame_count frame_skip length]; try lia;
        [| done].
      do 2 f_equal; [lia | f_equal; lia].
    + cbn [frame_count]. rewrite (proj2 (Z.eqb_neq _ _)) by lia. cbn [andb].
      rewrite IH; cbn [frames_read frame_count frame_skip length]; try lia; [| done].
      do 2 f_equal; [lia | f_equal; lia].
Qed.

(** X14: as long as no speed key and no 'q' is pressed, the loop processes
    every [frame_skip]-th frame: after [n] frames read at a frame skip of
    [max(1, speed)], [n / max(1, speed)] of them have been processed. *)
Theorem every_kth_frame_processed (speed : Z) (keys : list Z) :
  Forall (fun key => key ∉ [43; 61; 45; 95; 113]) keys →
  run_loop keys (start_loop speed)
  = Some {| frames_read := Z.of_nat (length keys);
            frame_count := Z.of_nat (length keys) / Z.max 1 speed;
            frame_skip := Z.max 1 speed |}.
Proof.
  intros Hkeys.
  rewrite (run_loop_steady keys (start_loop speed) Hkeys);
    cbn [start_loop frames_read frame_count frame_skip]; try lia.
  - reflexivity.
  - symmetry. apply Z.div_0_l. lia.
Qed.

Lemma every_kth_frame_processed_witness :
  run_loop [255; 255; 255; 255; 255; 255; 255] (start_loop 3)
  = Some {| frames_read := 7; frame_count := 2; frame_skip := 3 |}.
Proof.
  rewrite (every_kth_frame_processed 3 [255; 255; 255; 255; 255; 255; 255]).
  - reflexivity.
  - repeat constructor; set_solver.
Defined.

(** ** Rectangular zones *)





(** * Further properties of the zone configuration *)

(** ** Toggling a zone in the zone manager *)

Lemma get_person_zone_from_effective (cfg1 cfg2 : list zone) (pt : point)
    (acc : list string) :
  effective <$> cfg1 = effective <$> cfg2 →
  get_person_zone_from cfg1 pt acc = get_person_zone_from cfg2 pt acc.
Proof.
  revert cfg2 acc. induction cfg1 as [| z1 cfg1 IH]; intros [| z2 cfg2] acc Heq;
    try discriminate; [reflexivity |].
  cbn [fmap list_fmap] in Heq. unfold effective at 1 3 in Heq.
  injection Heq as Hname Hpoints Henabled Hrest.
  cbn [get_person_zone_from]. rewrite Hname, Hpoints, Henabled.
  destruct (negb (zone_enabled z2)); [by apply IH |].
  destruct (point_in_zone pt (z_points z2)) as [inside |]; [| reflexivity].
  cbn. by apply IH.
Qed.

Lemma toggle_zone_lookup (zone_index : Z) (cfg : list zone) (j : nat) :
  ZoneManager.toggle_zone zone_index cfg !! j
  = (fun z => if decide (Z.of_nat j = zone_index)
              then mkZone (z_name z) (z_points z) (Some (negb (zone_enabled z)))
              else z) <$> cfg !! j.
Proof.
  unfold ZoneManager.toggle_zone.
  destruct (Z.leb_spec 0 zone_index) as [Hlow | Hneg]; cbn [andb].
  - destruct (Z.ltb_spec zone_index (Z.of_nat (length cfg))) as [Hhigh | Hout].
    + rewrite list_lookup_alter.
      destruct (decide (Z.to_nat zone_index = j)) as [<- | Hne].
      * destruct (cfg !! Z.to_nat zone_index); cbn; [| reflexivity].
        by rewrite decide_True by lia.
      * destruct (cfg !! j); cbn; [| reflexivity].
        by rewrite decide_False by lia.
    + destruct (cfg !! j) as [z |] eqn:Hj; cbn; [| reflexivity].
      apply lookup_lt_Some in Hj. by rewrite decide_False by lia.
  - destruct (cfg !! j) as [z |] eqn:Hj; cbn; [| reflexivity].
    by rewrite decide_False by lia.
Qed.

(** X16: [toggle_zone] flips the enabled status of the zone at the index and
    leaves the names, the points and all other zones as they are; an index
    outside the list, a negative one included, changes nothing; and toggling
    the same zone twice gives the detector the zones it had before. *)
Theorem toggle_zone_flips_one (zone_index : Z) (cfg : list zone) :
  (∀ j z, cfg !! j = Some z →
     ∃ z', ZoneManager.toggle_zone zone_index cfg !! j = Some z'
           ∧ z_name z' = z_name z ∧ z_points z' = z_points z
           ∧ zone_enabled z'
             = if decide (Z.of_nat j = zone_index)
               then negb (zone_enabled z) else zone_enabled z)
  ∧ length (ZoneManager.toggle_zone zone_index cfg) = length cfg
  ∧ (zone_index < 0 ∨ Z.of_nat (length cfg) ≤ zone_index →
     ZoneManager.toggle_zone zone_index cfg = cfg)
  ∧ (∀ pt, get_person_zone
             (ZoneManager.toggle_zone zone_index (ZoneManager.toggle_zone zone_index cfg)) pt
           = get_person_zone cfg pt).
Proof.
  split; [| split; [| split]].
  - intros j z Hj. rewrite toggle_zone_lookup, Hj. cbn.
    eexists. split; [reflexivity |]. by destruct (decide (Z.of_nat j = zone_index)).
  - unfold ZoneManager.toggle_zone.
    destruct (_ && _); [apply length_alter | reflexivity].
  - intros Hout. unfold ZoneManager.toggle_zone.
    destruct (Z.leb_spec 0 zone_index); cbn [andb]; [| reflexivity].
    destruct (Z.ltb_spec zone_index (Z.of_nat (length cfg))); [lia | reflexivity].
  - intros pt. apply get_person_zone_from_effective.
    apply list_eq. intros j. rewrite !list_lookup_fmap, !toggle_zone_lookup.
    destruct (cfg !! j) as [z |]; [| reflexivity]. cbn.
    destruct (decide (Z.of_nat j = zone_index)); [| reflexivity].
    unfold effective, zone_name_of, zone_enabled. cbn.
    by rewrite negb_involutive.
Qed.

Lemma toggle_zone_flips_one_witness :
  zone_enabled <$> ZoneManager.toggle_zone 1 zones_ab = [true; false]
  ∧ ZoneManager.toggle_zone (-1) zones_ab = zones_ab
  ∧ get_person_zone (ZoneManager.toggle_zone 1 zones_ab) (15, 15) = Some ["A"].
Proof.
  destruct (toggle_zone_flips_one (-1) zones_ab) as (_ & _ & Hout & _).
  split; [reflexivity |]. split; [apply Hout; lia | by vm_compute].
Defined.

(** ** Zones created and deleted through the admin requests *)






(** ** The orientation and the starting vertex of a polygon *)

Section Orientation.

Implicit Types (p v w : point) (cnt : list point) (es : list (point * point)).












End Orientation.

